(** * AI Marketing ROI calculator: the deterministic calculation engine

    A shallow embedding of the static class [ROICalculator]
    (lib/roi-calculator.ts), of the records of [types/index.ts] and of
    the helpers of the route [app/api/benchmarks/route.ts], followed by
    their properties.

    Numbers.  The engine is embedded twice.

    - In the first embedding a TypeScript [number] is an exact rational
      ([Q]); the arithmetic of the engine ([+], [-], [*], [/], [Math.max],
      [Math.min], [>]) is the arithmetic of [Q], and the literal
      [Infinity] that [calculateROI] stores in [paybackMonths] is a value
      of its own ([Infinity] in [number_or_infinity]).  Equality of
      numbers is [Qeq] (written [==]); where two computations even build
      the same fraction the statement uses [=].  This embedding gives the
      values of the formulas; it knows no rounding, no overflow and no
      [NaN].

    - In the second embedding (the module [Binary64]) a [number] is a
      binary64 floating-point number, the type [float] of the kernel, with
      the operators of JavaScript on it: [Infinity], [-0] and [NaN]
      included.  The properties that rounding, overflow or [NaN] decide
      are stated on this embedding.

    An optional field or argument ([x?: number]) is an [option];
    [undefined] is [None]. *)

From Stdlib Require Import QArith Qminmax.
From Stdlib Require Import List String Ascii Bool Permutation.
From Stdlib Require Import Lia Lqa ZArith.
From Stdlib Require Import Floats.
Import ListNotations.

Local Open Scope Q_scope.

(** ** JavaScript operators used by the engine *)

Module JS.

(** [x > y] on numbers. *)
Definition gt (x y : Q) : bool := negb (Qle_bool x y).

(** Truthiness of an optional number: [undefined] and [0] are falsy. *)
Definition truthy (x : option Q) : bool :=
  match x with
  | Some q => negb (Qeq_bool q 0)
  | None => false
  end.

(** [x || d] for an optional number [x] and a number [d]. *)
Definition or (x : option Q) (d : Q) : Q :=
  match x with
  | Some q => if Qeq_bool q 0 then d else q
  | None => d
  end.

(** A parameter with a default value: [f(x = d)]. *)
Definition default (x : option Q) (d : Q) : Q :=
  match x with
  | Some q => q
  | None => d
  end.

Definition Math_max (x y : Q) : Q := Qmax x y.
Definition Math_min (x y : Q) : Q := Qmin x y.

(** A number that may be the literal [Infinity]. *)
Inductive number_or_infinity : Type :=
| Finite (q : Q)
| Infinity.

End JS.

(** ** The records of [types/index.ts] *)

Record WorkflowTask : Type := mkTask {
  name : string;
  hoursPerRun : Q;
  aiCoveragePct : Q;
  efficiencyGainPct : Q
}.

Inductive BillingModel : Type := per_user | per_account.

Record RecommendedTool : Type := mkTool {
  tool_name : string;
  billingModel : BillingModel;
  licensePerUser : option Q;
  accountCostPerMonth : option Q
}.

Record RevenueModel : Type := mkRevenueModel {
  revenuePerAsset : option Q;
  expectedIncrementalConversionLiftPct : option Q
}.

Record ROICalculation : Type := mkROI {
  totalHoursCurrent : Q;
  totalHoursFuture : Q;
  costCurrent : Q;
  costFuture : Q;
  monthlySavings : Q;
  aiRecurringCostPerMonth : Q;
  trainingCostOneTime : Q;
  revenueLiftPerRun : option Q;
  monthlyNetBenefit : Q;
  roiPercentage : Q;
  paybackMonths : JS.number_or_infinity;
  pilot3MonthSavings : Q;
  riskAdjustedSavings : Q;
  throughputMultiplier : option Q;
  additionalMonthlyCost : option Q;
  monthlyUplift : option Q;
  classification : option string;
  showNetBenefitTooltip : option bool
}.

Inductive ScenarioName : Type := Base | Conservative | Aggressive.

Record Scenario : Type := mkScenario {
  scenario_name : ScenarioName;
  multiplier : Q;
  calculation : ROICalculation
}.

(** ** The class [ROICalculator] *)

Module ROICalculator.

Definition calculateEffectiveEfficiency (aiCoveragePct efficiencyGainPct : Q) : Q :=
  (aiCoveragePct * efficiencyGainPct) / 100.

Definition calculateHoursSavedPerRun (hoursPerRun effectiveEfficiencyPct : Q) : Q :=
  hoursPerRun * (effectiveEfficiencyPct / 100).

Definition calculateFutureHoursPerRun (hoursPerRun hoursSavedPerRun : Q) : Q :=
  hoursPerRun - hoursSavedPerRun.

(** The pair of accumulators of [calculateTotalHours], also its result. *)
Record Hours : Type := mkHours { current : Q; future : Q }.

(** The body of the [forEach] callback: one task added to both totals. *)
Definition addTask (acc : Hours) (task : WorkflowTask) : Hours :=
  let effectiveEfficiency :=
    calculateEffectiveEfficiency (aiCoveragePct task) (efficiencyGainPct task) in
  let hoursSaved := calculateHoursSavedPerRun (hoursPerRun task) effectiveEfficiency in
  let futureHours := calculateFutureHoursPerRun (hoursPerRun task) hoursSaved in
  {| current := current acc + hoursPerRun task;
     future := future acc + futureHours |}.

Definition calculateTotalHours (tasks : list WorkflowTask) : Hours :=
  fold_left addTask tasks {| current := 0; future := 0 |}.

Record LaborCosts : Type := mkLabor {
  labor_current : Q;
  labor_future : Q;
  savings : Q
}.

Definition calculateLaborCosts
    (totalHoursCurrent totalHoursFuture averageHourlyCost : Q) : LaborCosts :=
  let costCurrent := totalHoursCurrent * averageHourlyCost in
  let costFuture := totalHoursFuture * averageHourlyCost in
  let savings := costCurrent - costFuture in
  {| labor_current := costCurrent; labor_future := costFuture; savings := savings |}.

Record TechCosts : Type := mkTech { recurringPerMonth : Q; oneTime : Q }.

(** The callback of [reduce] in [calculateTechCosts]. *)
Definition addTool (teamSize : Q) (sum : Q) (tool : RecommendedTool) : Q :=
  match billingModel tool with
  | per_account => sum + JS.or (accountCostPerMonth tool) 0
  | per_user => sum + JS.or (licensePerUser tool) 0 * teamSize
  end.

Definition calculateTechCosts
    (recommendedTools : list RecommendedTool) (teamSize : Q)
    (trainingCostOneTime : option Q) : TechCosts :=
  let trainingCostOneTime := JS.default trainingCostOneTime 5000 in
  let recurringPerMonth := fold_left (addTool teamSize) recommendedTools 0 in
  {| recurringPerMonth := recurringPerMonth; oneTime := trainingCostOneTime |}.

(** [revenueModel?.field]: [undefined] when the model itself is. *)
Definition optField (revenueModel : option RevenueModel)
    (field : RevenueModel -> option Q) : option Q :=
  match revenueModel with
  | Some m => field m
  | None => None
  end.

Definition calculateRevenueImpact
    (revenueModel : option RevenueModel) (runsPerMonth : option Q) : option Q :=
  let runsPerMonth := JS.default runsPerMonth 10 in
  if negb (JS.truthy (optField revenueModel revenuePerAsset))
     || negb (JS.truthy (optField revenueModel expectedIncrementalConversionLiftPct))
  then None
  else
    match optField revenueModel revenuePerAsset,
          optField revenueModel expectedIncrementalConversionLiftPct with
    | Some rpa, Some lift =>
        let revenueLiftPerAsset := rpa * (lift / 100) in
        Some (revenueLiftPerAsset * runsPerMonth)
    | _, _ => None
    end.

(** The [map] callback of [calculateROI]: the task with its efficiency
    gain scaled and clamped to [0, 100]. *)
Definition adjustTask (scenarioMultiplier : Q) (task : WorkflowTask) : WorkflowTask :=
  {| name := name task;
     hoursPerRun := hoursPerRun task;
     aiCoveragePct := aiCoveragePct task;
     efficiencyGainPct :=
       JS.Math_min 100 (JS.Math_max 0 (efficiencyGainPct task * scenarioMultiplier)) |}.

Definition calculateROI
    (tasks : list WorkflowTask) (recommendedTools : list RecommendedTool)
    (teamSize averageHourlyCost : Q) (revenueModel : option RevenueModel)
    (trainingCostOneTime runsPerMonth scenarioMultiplier : option Q)
    : ROICalculation :=
  let trainingCostOneTime := JS.default trainingCostOneTime 5000 in
  let runsPerMonth := JS.default runsPerMonth 10 in
  let scenarioMultiplier := JS.default scenarioMultiplier 1 in
  let horizonMonths := 12 in
  let pilotMonths := 3 in
  let riskFactor := 7 # 10 in
  let adjustedTasks := map (adjustTask scenarioMultiplier) tasks in
  let hours := calculateTotalHours adjustedTasks in
  let totalHoursCurrentPerRun := current hours in
  let totalHoursFuturePerRun := future hours in
  let safeRunsPerMonth := JS.Math_max runsPerMonth 0 in
  let totalHoursCurrent := totalHoursCurrentPerRun * safeRunsPerMonth in
  let totalHoursFuture := totalHoursFuturePerRun * safeRunsPerMonth in
  let labor := calculateLaborCosts totalHoursCurrent totalHoursFuture averageHourlyCost in
  let costCurrent := labor_current labor in
  let costFuture := labor_future labor in
  let rawSavings := savings labor in
  let rawLaborSavings := rawSavings in
  let monthlySavings := JS.Math_max rawLaborSavings 0 in
  let tech := calculateTechCosts recommendedTools teamSize (Some trainingCostOneTime) in
  let aiRecurringCostPerMonth := recurringPerMonth tech in
  let calculatedTrainingCost := oneTime tech in
  let revenueLiftPerMonth :=
    JS.or (calculateRevenueImpact revenueModel (Some safeRunsPerMonth)) 0 in
  let grossBenefitPerMonth := monthlySavings + revenueLiftPerMonth in
  let monthlyNetBenefit := grossBenefitPerMonth - aiRecurringCostPerMonth in
  let paybackMonths :=
    if JS.gt monthlyNetBenefit 0
    then JS.Finite (calculatedTrainingCost / monthlyNetBenefit)
    else JS.Infinity in
  let totalNetBenefitOverHorizon :=
    monthlyNetBenefit * horizonMonths - calculatedTrainingCost in
  let totalInvestmentOverHorizon :=
    calculatedTrainingCost + aiRecurringCostPerMonth * horizonMonths in
  let roiPercentage :=
    if JS.gt totalInvestmentOverHorizon 0
    then (totalNetBenefitOverHorizon / totalInvestmentOverHorizon) * 100
    else 0 in
  let pilotGrossBenefit := grossBenefitPerMonth * pilotMonths in
  let pilotAIRecurringCost := aiRecurringCostPerMonth * pilotMonths in
  let pilotTotalCost := calculatedTrainingCost + pilotAIRecurringCost in
  let pilotNetValue := pilotGrossBenefit - pilotTotalCost in
  let riskAdjustedSavings := pilotNetValue * riskFactor in
  let revenueLiftPerRun := revenueLiftPerMonth in
  let throughputMultiplier :=
    if JS.gt totalHoursFuture 0 then totalHoursCurrent / totalHoursFuture else 1 in
  let additionalMonthlyCost :=
    JS.Math_max (aiRecurringCostPerMonth - monthlySavings) 0 in
  let monthlyUplift := revenueLiftPerMonth in
  let verdict :=
    if JS.gt additionalMonthlyCost 0 && JS.gt monthlyUplift additionalMonthlyCost
    then ("AI Performance Investment"%string, true)
    else if JS.gt monthlySavings aiRecurringCostPerMonth
    then ("Cost Savings Initiative"%string, false)
    else ("Neutral"%string, false) in
  let classification := fst verdict in
  let showNetBenefitTooltip := snd verdict in
  {| totalHoursCurrent := totalHoursCurrent;
     totalHoursFuture := totalHoursFuture;
     costCurrent := costCurrent;
     costFuture := costFuture;
     monthlySavings := monthlySavings;
     aiRecurringCostPerMonth := aiRecurringCostPerMonth;
     trainingCostOneTime := calculatedTrainingCost;
     revenueLiftPerRun := Some revenueLiftPerRun;
     monthlyNetBenefit := monthlyNetBenefit;
     roiPercentage := roiPercentage;
     paybackMonths := paybackMonths;
     pilot3MonthSavings := pilotNetValue;
     riskAdjustedSavings := riskAdjustedSavings;
     throughputMultiplier := Some throughputMultiplier;
     additionalMonthlyCost := Some additionalMonthlyCost;
     monthlyUplift := Some monthlyUplift;
     classification := Some classification;
     showNetBenefitTooltip := Some showNetBenefitTooltip |}.

Definition generateScenarios
    (tasks : list WorkflowTask) (recommendedTools : list RecommendedTool)
    (teamSize averageHourlyCost : Q) (revenueModel : option RevenueModel)
    (trainingCostOneTime runsPerMonth : option Q) : list Scenario :=
  let trainingCostOneTime := JS.default trainingCostOneTime 5000 in
  let runsPerMonth := JS.default runsPerMonth 10 in
  [ {| scenario_name := Conservative;
       multiplier := 7 # 10;
       calculation :=
         calculateROI tasks recommendedTools teamSize averageHourlyCost revenueModel
           (Some trainingCostOneTime) (Some runsPerMonth) (Some (7 # 10)) |};
    {| scenario_name := Base;
       multiplier := 1;
       calculation :=
         calculateROI tasks recommendedTools teamSize averageHourlyCost revenueModel
           (Some trainingCostOneTime) (Some runsPerMonth) (Some 1) |};
    {| scenario_name := Aggressive;
       multiplier := 13 # 10;
       calculation :=
         calculateROI tasks recommendedTools teamSize averageHourlyCost revenueModel
           (Some trainingCostOneTime) (Some runsPerMonth) (Some (13 # 10)) |} ].

End ROICalculator.

Import ROICalculator.

(** ** Equality of results up to the equality of the rationals *)

Definition eq_number_or_infinity (x y : JS.number_or_infinity) : Prop :=
  match x, y with
  | JS.Finite p, JS.Finite q => p == q
  | JS.Infinity, JS.Infinity => True
  | _, _ => False
  end.

(** ** Definitions used by the statements *)

(** The task of the worked example of the specification. *)
Definition exampleTask (n : string) : WorkflowTask :=
  {| name := n; hoursPerRun := 10; aiCoveragePct := 50; efficiencyGainPct := 40 |}.

(** The recurring cost of a catalog billed per account, read off the
    [accountCostPerMonth] fields alone. *)
Definition accountCosts (tools : list RecommendedTool) : Q :=
  fold_left (fun sum tool => sum + JS.or (accountCostPerMonth tool) 0) tools 0.

(** The two horizon quantities of the ROI percentage, from the fields of
    the result. *)
Definition totalNetBenefitOverHorizon (c : ROICalculation) : Q :=
  monthlyNetBenefit c * 12 - trainingCostOneTime c.
Definition totalInvestmentOverHorizon (c : ROICalculation) : Q :=
  trainingCostOneTime c + aiRecurringCostPerMonth c * 12.

Definition cost_in_range (cost : option Q) : Prop :=
  match cost with
  | Some c => 0 <= c
  | None => True
  end.


(** The tasks of the scenario comparison. *)
Definition scenario_task (task : WorkflowTask) : Prop :=
  0 <= hoursPerRun task /\
  0 <= aiCoveragePct task <= 100 /\
  0 <= efficiencyGainPct task <= 100.







(** ** Definitions used by the further properties *)




(** A revenue model, if any, whose fields are not negative. *)
Definition revenue_not_negative (revenueModel : option RevenueModel) : Prop :=
  match revenueModel with
  | Some model =>
      cost_in_range (revenuePerAsset model) /\
      cost_in_range (expectedIncrementalConversionLiftPct model)
  | None => True
  end.

(** ** The route [app/api/benchmarks/route.ts]: cleaning the answer of the benchmark service

    The handler [POST] clamps the tasks, normalizes the tools, filters the
    redundant ones and clamps the revenue model before it answers; the
    page then calls [generateScenarios] on the result.  Each step is the
    callback or the block of the handler that performs it. *)

Module Route.

(** A tool as the service sends it: the billing model is any string, or
    missing. *)
Record RawTool : Type := mkRawTool {
  raw_name : string;
  raw_billingModel : option string;
  raw_licensePerUser : option Q;
  raw_accountCostPerMonth : option Q
}.

(** [!price || price <= 0]. *)
Definition missingOrNotPositive (price : option Q) : bool :=
  negb (JS.truthy price)
  || match price with
     | Some p => Qle_bool p 0
     | None => false
     end.

(** The price of a tool after the fallback: its own when it is positive,
    else the other price, else 50. *)
Definition priceOrFallback (own other : option Q) : option Q :=
  if missingOrNotPositive own then Some (JS.or other 50) else own.

(** [x === s] for a value that is a string or missing. *)
Definition strictEq (x : option string) (s : string) : bool :=
  match x with
  | Some v => String.eqb v s
  | None => false
  end.

(** The [map] callback that normalizes a tool and its billing model. *)
Definition normalizeTool (tool : RawTool) : RecommendedTool :=
  if strictEq (raw_billingModel tool) "per_user" then
    {| tool_name := raw_name tool;
       billingModel := per_user;
       licensePerUser :=
         priceOrFallback (raw_licensePerUser tool) (raw_accountCostPerMonth tool);
       accountCostPerMonth := None |}
  else if strictEq (raw_billingModel tool) "per_account" then
    {| tool_name := raw_name tool;
       billingModel := per_account;
       licensePerUser := None;
       accountCostPerMonth :=
         priceOrFallback (raw_accountCostPerMonth tool) (raw_licensePerUser tool) |}
  else
    {| tool_name := raw_name tool;
       billingModel := per_user;
       licensePerUser :=
         priceOrFallback (raw_licensePerUser tool) (raw_accountCostPerMonth tool);
       accountCostPerMonth := None |}.

(** The block that clamps the revenue model: the lift to [0, 100] and a
    negative revenue per asset to 0, each when it is present. *)
Definition clampRevenueModel (model : RevenueModel) : RevenueModel :=
  {| expectedIncrementalConversionLiftPct :=
       match expectedIncrementalConversionLiftPct model with
       | Some lift => Some (JS.Math_max 0 (JS.Math_min lift 100))
       | None => None
       end;
     revenuePerAsset :=
       match revenuePerAsset model with
       | Some asset => if JS.gt 0 asset then Some 0 else Some asset
       | None => None
       end |}.

(** *** [filterRedundantTools]

    The string methods: [includes] is the search of a substring;
    [toLowerCase] is a parameter of the filter, so that what is proved
    holds for the lowering of every alphabet. *)

Fixpoint includes (s sub : string) : bool :=
  String.prefix sub s
  || match s with
     | EmptyString => false
     | String _ rest => includes rest sub
     end.

(** [keywords.some((kw) => s.includes(kw))]. *)
Definition includesSome (s : string) (keywords : list string) : bool :=
  existsb (includes s) keywords.

Definition transcriptionOnlyTools : list string := ["otter"; "trint"; "sonix"]%string.
Definition highEndVideoKeywords : list string :=
  ["runway"; "veo"; "flow pro"; "gen-4"]%string.
Definition outreachSequencerKeywords : list string := ["apollo"; "smartlead"]%string.
Definition enrichmentKeywords : list string :=
  ["zoominfo"; "clay"; "dropcontact"; "lusha"]%string.
Definition automationKeywords : list string := ["phantombuster"; "waalaxy"]%string.

(** The variables of the loop. *)
Record FilterState : Type := mkFilterState {
  filtered : list RecommendedTool;
  hasHighEndVideo : bool;
  hasOutreachSequencer : bool;
  hasEnrichmentTool : bool;
  hasAutomationTool : bool
}.

(** Rules 3 to 6,
    [if (member) { if (has) isRedundant = true; else has = true; }]:
    the new values of [isRedundant] and of the flag. *)
Definition firstOfCategory (member has isRedundant : bool) : bool * bool :=
  if member then (if has then (true, has) else (isRedundant, true))
  else (isRedundant, has).

Section Filter.

Variable toLowerCase : string -> string.

(** The body of the loop over the tools. *)
Definition filterStep (hasDescript : bool) (st : FilterState) (tool : RecommendedTool)
    : FilterState :=
  let toolNameLower := toLowerCase (tool_name tool) in
  let isRedundant := false in
  let isRedundant :=
    if includes toolNameLower "otter" && hasDescript then true else isRedundant in
  let isRedundant :=
    if hasDescript && includesSome toolNameLower transcriptionOnlyTools
    then true else isRedundant in
  let video :=
    firstOfCategory (includesSome toolNameLower highEndVideoKeywords)
      (hasHighEndVideo st) isRedundant in
  let outreach :=
    firstOfCategory (includesSome toolNameLower outreachSequencerKeywords)
      (hasOutreachSequencer st) (fst video) in
  let enrichment :=
    firstOfCategory (includesSome toolNameLower enrichmentKeywords)
      (hasEnrichmentTool st) (fst outreach) in
  let automation :=
    firstOfCategory (includesSome toolNameLower automationKeywords)
      (hasAutomationTool st) (fst enrichment) in
  let isRedundant :=
    if existsb (fun t => String.eqb (toLowerCase (tool_name t)) toolNameLower)
         (filtered st)
    then true else fst automation in
  {| filtered := if isRedundant then filtered st else filtered st ++ [tool];
     hasHighEndVideo := snd video;
     hasOutreachSequencer := snd outreach;
     hasEnrichmentTool := snd enrichment;
     hasAutomationTool := snd automation |}.

Definition hasDescriptIn (tools : list RecommendedTool) : bool :=
  let toolNames := map (fun t => toLowerCase (tool_name t)) tools in
  existsb (fun n => includes n "descript") toolNames.

Definition filterRedundantTools (tools : list RecommendedTool) : list RecommendedTool :=
  let hasDescript := hasDescriptIn tools in
  filtered
    (fold_left (filterStep hasDescript) tools
       {| filtered := [];
          hasHighEndVideo := false;
          hasOutreachSequencer := false;
          hasEnrichmentTool := false;
          hasAutomationTool := false |}).

End Filter.

(** The lowering of the letters A to Z, for the examples. *)
Definition lowerAscii (c : ascii) : ascii :=
  let n := nat_of_ascii c in
  if (65 <=? n)%nat && (n <=? 90)%nat then ascii_of_nat (n + 32) else c.

Fixpoint asciiToLowerCase (s : string) : string :=
  match s with
  | EmptyString => EmptyString
  | String c rest => String (lowerAscii c) (asciiToLowerCase rest)
  end.

(** *** The rate limiter

    [rateLimitMap] is the store of the module, threaded through the calls;
    [now] is the value of [Date.now()] at the call, in milliseconds.
    Counts and times are integers. *)

Definition RATE_LIMIT_MAX_REQUESTS : Z := 10.
Definition RATE_LIMIT_WINDOW_MS : Z := 60 * 1000.
Definition MIN_REQUEST_INTERVAL_MS : Z := 1000.

Record RateRecord : Type := mkRateRecord {
  count : Z;
  resetTime : Z;
  timestamps : list Z
}.

Definition RateLimitMap : Type := string -> option RateRecord.

Definition emptyMap : RateLimitMap := fun _ => None.

(** [rateLimitMap.set(key, value)]. *)
Definition mapSet (rateLimitMap : RateLimitMap) (key : string) (value : RateRecord)
    : RateLimitMap :=
  fun k => if String.eqb key k then Some value else rateLimitMap k.

Record RateLimit : Type := mkRateLimit {
  allowed : bool;
  remaining : Z;
  limit_resetTime : Z;
  tooFast : option bool
}.

Record RateStatus : Type := mkRateStatus {
  status_remaining : Z;
  status_resetTime : Z
}.

(** [timestamps.length > 0] and the last request less than a second ago. *)
Definition isTooFast (now : Z) (timestamps : list Z) : bool :=
  match timestamps with
  | [] => false
  | _ :: _ => (now - last timestamps 0 <? MIN_REQUEST_INTERVAL_MS)%Z
  end.

(** [timestamps.slice(-20)] when there are more than 20 of them. *)
Definition keepLastTwenty (timestamps : list Z) : list Z :=
  if (20 <? List.length timestamps)%nat
  then skipn (List.length timestamps - 20) timestamps
  else timestamps.

Definition checkRateLimit (now : Z) (rateLimitMap : RateLimitMap) (identifier : string)
    : RateLimit * RateLimitMap :=
  let newWindow :=
    ({| allowed := true;
        remaining := (RATE_LIMIT_MAX_REQUESTS - 1)%Z;
        limit_resetTime := (now + RATE_LIMIT_WINDOW_MS)%Z;
        tooFast := None |},
     mapSet rateLimitMap identifier
       {| count := 1%Z;
          resetTime := (now + RATE_LIMIT_WINDOW_MS)%Z;
          timestamps := [now] |}) in
  match rateLimitMap identifier with
  | None => newWindow
  | Some record =>
      if (now >? resetTime record)%Z then newWindow
      else if isTooFast now (timestamps record) then
        ({| allowed := false;
            remaining := 0%Z;
            limit_resetTime := resetTime record;
            tooFast := Some true |},
         mapSet rateLimitMap identifier
           {| count := count record;
              resetTime := resetTime record;
              timestamps := timestamps record ++ [now] |})
      else if (count record >=? RATE_LIMIT_MAX_REQUESTS)%Z then
        ({| allowed := false;
            remaining := 0%Z;
            limit_resetTime := resetTime record;
            tooFast := None |},
         rateLimitMap)
      else
        let newCount := (count record + 1)%Z in
        ({| allowed := true;
            remaining := (RATE_LIMIT_MAX_REQUESTS - newCount)%Z;
            limit_resetTime := resetTime record;
            tooFast := None |},
         mapSet rateLimitMap identifier
           {| count := newCount;
              resetTime := resetTime record;
              timestamps := keepLastTwenty (timestamps record ++ [now]) |})
  end.

Definition getRateLimitStatus (now : Z) (rateLimitMap : RateLimitMap) (identifier : string)
    : RateStatus :=
  match rateLimitMap identifier with
  | None =>
      {| status_remaining := RATE_LIMIT_MAX_REQUESTS;
         status_resetTime := (now + RATE_LIMIT_WINDOW_MS)%Z |}
  | Some record =>
      if (now >? resetTime record)%Z then
        {| status_remaining := RATE_LIMIT_MAX_REQUESTS;
           status_resetTime := (now + RATE_LIMIT_WINDOW_MS)%Z |}
      else
        {| status_remaining := Z.max 0 (RATE_LIMIT_MAX_REQUESTS - count record);
           status_resetTime := resetTime record |}
  end.

(** The requests of one client at the times [nows], in turn: the answers
    and the store they leave. *)
Fixpoint checkAll (nows : list Z) (rateLimitMap : RateLimitMap) (identifier : string)
    : list RateLimit * RateLimitMap :=
  match nows with
  | [] => ([], rateLimitMap)
  | now :: later =>
      let (answer, store) := checkRateLimit now rateLimitMap identifier in
      let (answers, final) := checkAll later store identifier in
      (answer :: answers, final)
  end.

(** *** [getClientIdentifier]

    [get] is [request.headers.get]; [firstSegment s] is [s.split(",")[0]]. *)

Fixpoint firstSegment (s : string) : string :=
  match s with
  | EmptyString => EmptyString
  | String c rest =>
      if Ascii.eqb c ","%char then EmptyString else String c (firstSegment rest)
  end.

(** [x || y] for strings that may be missing: the empty string is falsy. *)
Definition orString (x y : option string) : option string :=
  match x with
  | Some EmptyString => y
  | Some _ => x
  | None => y
  end.

Definition getClientIdentifier (get : string -> option string) : string :=
  let ip :=
    orString
      (orString (option_map firstSegment (get "x-forwarded-for"%string))
         (get "x-real-ip"%string))
      (Some "unknown"%string) in
  match ip with
  | Some s => s
  | None => "unknown"%string
  end.

End Route.

(** The price of a normalized tool is on the field of its billing model,
    the other field is empty. *)
Definition priced (tool : RecommendedTool) (price : Q) : Prop :=
  match billingModel tool with
  | per_user => licensePerUser tool = Some price /\ accountCostPerMonth tool = None
  | per_account => accountCostPerMonth tool = Some price /\ licensePerUser tool = None
  end.

(** A list obtained from another by dropping some of its elements. *)
Inductive Subsequence {A : Type} : list A -> list A -> Prop :=
| Subsequence_nil : Subsequence [] []
| Subsequence_drop (x : A) (l l' : list A) : Subsequence l l' -> Subsequence l (x :: l')
| Subsequence_keep (x : A) (l l' : list A) : Subsequence l l' -> Subsequence (x :: l) (x :: l').

(** The lowered name of a tool contains one of the keywords. *)
Definition matchesAny (toLowerCase : string -> string) (keywords : list string)
    (tool : RecommendedTool) : bool :=
  Route.includesSome (toLowerCase (tool_name tool)) keywords.

(** The four categories of which the filter keeps one tool. *)
Definition exclusiveCategories : list (list string) :=
  [ Route.highEndVideoKeywords; Route.outreachSequencerKeywords;
    Route.enrichmentKeywords; Route.automationKeywords ].

(** A catalog in which the filter finds nothing to drop: the lowered names
    are distinct, each exclusive category has at most one tool, and no
    transcription-only tool stands beside Descript. *)
Definition irredundant (toLowerCase : string -> string) (tools : list RecommendedTool)
    : Prop :=
  NoDup (map (fun t => toLowerCase (tool_name t)) tools) /\
  (forall keywords, In keywords exclusiveCategories ->
     (List.length (filter (matchesAny toLowerCase keywords) tools) <= 1)%nat) /\
  (Route.hasDescriptIn toLowerCase tools = true ->
   Forall (fun t => matchesAny toLowerCase Route.transcriptionOnlyTools t = false) tools).

(** A record of the rate limiter as the limiter makes them. *)
Definition record_ok (record : Route.RateRecord) : Prop :=
  (1 <= Route.count record <= Route.RATE_LIMIT_MAX_REQUESTS)%Z /\
  Route.timestamps record <> [].

Definition store_ok (rateLimitMap : Route.RateLimitMap) : Prop :=
  forall identifier record, rateLimitMap identifier = Some record -> record_ok record.

(** How many of the answers let the request through. *)
Definition allowedCount (answers : list Route.RateLimit) : nat :=
  List.length (filter Route.allowed answers).

(** Each time is less than a second after the one before, from [start]. *)
Fixpoint hurried (start : Z) (nows : list Z) : Prop :=
  match nows with
  | [] => True
  | now :: later => (now - start < Route.MIN_REQUEST_INTERVAL_MS)%Z /\ hurried now later
  end.

(** The four ways a request is answered. *)
Inductive outcome (now : Z) (m : Route.RateLimitMap) (identifier : string)
    : Route.RateLimit -> Route.RateLimitMap -> Prop :=
| outcome_new_window :
    (m identifier = None \/
     exists record, m identifier = Some record /\ (now > Route.resetTime record)%Z) ->
    outcome now m identifier
      (Route.mkRateLimit true (Route.RATE_LIMIT_MAX_REQUESTS - 1)%Z
         (now + Route.RATE_LIMIT_WINDOW_MS)%Z None)
      (Route.mapSet m identifier
         (Route.mkRateRecord 1%Z (now + Route.RATE_LIMIT_WINDOW_MS)%Z [now]))
| outcome_too_fast (record : Route.RateRecord) :
    m identifier = Some record -> (now <= Route.resetTime record)%Z ->
    Route.isTooFast now (Route.timestamps record) = true ->
    outcome now m identifier
      (Route.mkRateLimit false 0%Z (Route.resetTime record) (Some true))
      (Route.mapSet m identifier
         (Route.mkRateRecord (Route.count record) (Route.resetTime record)
            (Route.timestamps record ++ [now])))
| outcome_full (record : Route.RateRecord) :
    m identifier = Some record -> (now <= Route.resetTime record)%Z ->
    Route.isTooFast now (Route.timestamps record) = false ->
    (Route.count record >= Route.RATE_LIMIT_MAX_REQUESTS)%Z ->
    outcome now m identifier
      (Route.mkRateLimit false 0%Z (Route.resetTime record) None) m
| outcome_counted (record : Route.RateRecord) :
    m identifier = Some record -> (now <= Route.resetTime record)%Z ->
    Route.isTooFast now (Route.timestamps record) = false ->
    (Route.count record < Route.RATE_LIMIT_MAX_REQUESTS)%Z ->
    outcome now m identifier
      (Route.mkRateLimit true (Route.RATE_LIMIT_MAX_REQUESTS - (Route.count record + 1))%Z
         (Route.resetTime record) None)
      (Route.mapSet m identifier
         (Route.mkRateRecord (Route.count record + 1)%Z (Route.resetTime record)
            (Route.keepLastTwenty (Route.timestamps record ++ [now])))).

(** ** The engine on binary64 numbers

    The same class, function by function, with [number] as the binary64
    [float] of the kernel: every operation rounds to the nearest
    representable number, a result too large is [Infinity], and
    [Infinity - Infinity] is [NaN].  The decimal literals of the source
    ([0.7], [1.3], [0.5]) stand for the nearest binary64 number, as they
    do in JavaScript. *)

Set Warnings "-inexact-float".

Module Binary64.

Local Open Scope float_scope.

(** *** The operators of JavaScript on binary64 numbers *)

(** [x > y]: false when either side is [NaN]. *)
Definition gt (x y : float) : bool := y <? x.

(** The numbers that count as false: [0], [-0] and [NaN]. *)
Definition falsy (x : float) : bool := is_zero x || is_nan x.

(** Truthiness of an optional number. *)
Definition truthy (x : option float) : bool :=
  match x with
  | Some f => negb (falsy f)
  | None => false
  end.

(** [x || d] for an optional number [x] and a number [d]. *)
Definition or (x : option float) (d : float) : float :=
  match x with
  | Some f => if falsy f then d else f
  | None => d
  end.

(** A parameter with a default value: [f(x = d)]. *)
Definition default (x : option float) (d : float) : float :=
  match x with
  | Some f => f
  | None => d
  end.

(** [Math.max] and [Math.min]: [NaN] when an argument is [NaN]; [+0]
    counts as larger than [-0]. *)
Definition Math_max (x y : float) : float :=
  if is_nan x || is_nan y then nan
  else if x <? y then y
  else if y <? x then x
  else if get_sign x then y else x.

Definition Math_min (x y : float) : float :=
  if is_nan x || is_nan y then nan
  else if x <? y then x
  else if y <? x then y
  else if get_sign x then x else y.

(** *** The records of [types/index.ts] *)

Record WorkflowTask : Type := mkTask {
  name : string;
  hoursPerRun : float;
  aiCoveragePct : float;
  efficiencyGainPct : float
}.

Record RecommendedTool : Type := mkTool {
  tool_name : string;
  billingModel : BillingModel;
  licensePerUser : option float;
  accountCostPerMonth : option float
}.

Record RevenueModel : Type := mkRevenueModel {
  revenuePerAsset : option float;
  expectedIncrementalConversionLiftPct : option float
}.

Record ROICalculation : Type := mkROI {
  totalHoursCurrent : float;
  totalHoursFuture : float;
  costCurrent : float;
  costFuture : float;
  monthlySavings : float;
  aiRecurringCostPerMonth : float;
  trainingCostOneTime : float;
  revenueLiftPerRun : option float;
  monthlyNetBenefit : float;
  roiPercentage : float;
  paybackMonths : float;
  pilot3MonthSavings : float;
  riskAdjustedSavings : float;
  throughputMultiplier : option float;
  additionalMonthlyCost : option float;
  monthlyUplift : option float;
  classification : option string;
  showNetBenefitTooltip : option bool
}.

Record Scenario : Type := mkScenario {
  scenario_name : ScenarioName;
  multiplier : float;
  calculation : ROICalculation
}.

(** *** The class [ROICalculator] *)

Definition calculateEffectiveEfficiency (aiCoveragePct efficiencyGainPct : float) : float :=
  (aiCoveragePct * efficiencyGainPct) / 100.

Definition calculateHoursSavedPerRun (hoursPerRun effectiveEfficiencyPct : float) : float :=
  hoursPerRun * (effectiveEfficiencyPct / 100).

Definition calculateFutureHoursPerRun (hoursPerRun hoursSavedPerRun : float) : float :=
  hoursPerRun - hoursSavedPerRun.

(** The pair of accumulators of [calculateTotalHours], also its result. *)
Record Hours : Type := mkHours { current : float; future : float }.

(** The body of the [forEach] callback: one task added to both totals. *)
Definition addTask (acc : Hours) (task : WorkflowTask) : Hours :=
  let effectiveEfficiency :=
    calculateEffectiveEfficiency (aiCoveragePct task) (efficiencyGainPct task) in
  let hoursSaved := calculateHoursSavedPerRun (hoursPerRun task) effectiveEfficiency in
  let futureHours := calculateFutureHoursPerRun (hoursPerRun task) hoursSaved in
  {| current := current acc + hoursPerRun task;
     future := future acc + futureHours |}.

Definition calculateTotalHours (tasks : list WorkflowTask) : Hours :=
  fold_left addTask tasks {| current := 0; future := 0 |}.

Record LaborCosts : Type := mkLabor {
  labor_current : float;
  labor_future : float;
  savings : float
}.

Definition calculateLaborCosts
    (totalHoursCurrent totalHoursFuture averageHourlyCost : float) : LaborCosts :=
  let costCurrent := totalHoursCurrent * averageHourlyCost in
  let costFuture := totalHoursFuture * averageHourlyCost in
  let savings := costCurrent - costFuture in
  {| labor_current := costCurrent; labor_future := costFuture; savings := savings |}.

Record TechCosts : Type := mkTech { recurringPerMonth : float; oneTime : float }.

(** The callback of [reduce] in [calculateTechCosts]. *)
Definition addTool (teamSize : float) (sum : float) (tool : RecommendedTool) : float :=
  match billingModel tool with
  | per_account => sum + or (accountCostPerMonth tool) 0
  | per_user => sum + or (licensePerUser tool) 0 * teamSize
  end.

Definition calculateTechCosts
    (recommendedTools : list RecommendedTool) (teamSize : float)
    (trainingCostOneTime : option float) : TechCosts :=
  let trainingCostOneTime := default trainingCostOneTime 5000 in
  let recurringPerMonth := fold_left (addTool teamSize) recommendedTools 0 in
  {| recurringPerMonth := recurringPerMonth; oneTime := trainingCostOneTime |}.

(** [revenueModel?.field]: [undefined] when the model itself is. *)
Definition optField (revenueModel : option RevenueModel)
    (field : RevenueModel -> option float) : option float :=
  match revenueModel with
  | Some m => field m
  | None => None
  end.

Definition calculateRevenueImpact
    (revenueModel : option RevenueModel) (runsPerMonth : option float) : option float :=
  let runsPerMonth := default runsPerMonth 10 in
  if negb (truthy (optField revenueModel revenuePerAsset))
     || negb (truthy (optField revenueModel expectedIncrementalConversionLiftPct))
  then None
  else
    match optField revenueModel revenuePerAsset,
          optField revenueModel expectedIncrementalConversionLiftPct with
    | Some rpa, Some lift =>
        let revenueLiftPerAsset := rpa * (lift / 100) in
        Some (revenueLiftPerAsset * runsPerMonth)
    | _, _ => None
    end.

(** The [map] callback of [calculateROI]: the task with its efficiency
    gain scaled and clamped to [0, 100]. *)
Definition adjustTask (scenarioMultiplier : float) (task : WorkflowTask) : WorkflowTask :=
  {| name := name task;
     hoursPerRun := hoursPerRun task;
     aiCoveragePct := aiCoveragePct task;
     efficiencyGainPct :=
       Math_min 100 (Math_max 0 (efficiencyGainPct task * scenarioMultiplier)) |}.

Definition calculateROI
    (tasks : list WorkflowTask) (recommendedTools : list RecommendedTool)
    (teamSize averageHourlyCost : float) (revenueModel : option RevenueModel)
    (trainingCostOneTime runsPerMonth scenarioMultiplier : option float)
    : ROICalculation :=
  let trainingCostOneTime := default trainingCostOneTime 5000 in
  let runsPerMonth := default runsPerMonth 10 in
  let scenarioMultiplier := default scenarioMultiplier 1 in
  let horizonMonths := 12 in
  let pilotMonths := 3 in
  let riskFactor := 0.7 in
  let adjustedTasks := map (adjustTask scenarioMultiplier) tasks in
  let hours := calculateTotalHours adjustedTasks in
  let totalHoursCurrentPerRun := current hours in
  let totalHoursFuturePerRun := future hours in
  let safeRunsPerMonth := Math_max runsPerMonth 0 in
  let totalHoursCurrent := totalHoursCurrentPerRun * safeRunsPerMonth in
  let totalHoursFuture := totalHoursFuturePerRun * safeRunsPerMonth in
  let labor := calculateLaborCosts totalHoursCurrent totalHoursFuture averageHourlyCost in
  let costCurrent := labor_current labor in
  let costFuture := labor_future labor in
  let rawSavings := savings labor in
  let rawLaborSavings := rawSavings in
  let monthlySavings := Math_max rawLaborSavings 0 in
  let tech := calculateTechCosts recommendedTools teamSize (Some trainingCostOneTime) in
  let aiRecurringCostPerMonth := recurringPerMonth tech in
  let calculatedTrainingCost := oneTime tech in
  let revenueLiftPerMonth :=
    or (calculateRevenueImpact revenueModel (Some safeRunsPerMonth)) 0 in
  let grossBenefitPerMonth := monthlySavings + revenueLiftPerMonth in
  let monthlyNetBenefit := grossBenefitPerMonth - aiRecurringCostPerMonth in
  let paybackMonths :=
    if gt monthlyNetBenefit 0
    then calculatedTrainingCost / monthlyNetBenefit
    else infinity in
  let totalNetBenefitOverHorizon :=
    monthlyNetBenefit * horizonMonths - calculatedTrainingCost in
  let totalInvestmentOverHorizon :=
    calculatedTrainingCost + aiRecurringCostPerMonth * horizonMonths in
  let roiPercentage :=
    if gt totalInvestmentOverHorizon 0
    then (totalNetBenefitOverHorizon / totalInvestmentOverHorizon) * 100
    else 0 in
  let pilotGrossBenefit := grossBenefitPerMonth * pilotMonths in
  let pilotAIRecurringCost := aiRecurringCostPerMonth * pilotMonths in
  let pilotTotalCost := calculatedTrainingCost + pilotAIRecurringCost in
  let pilotNetValue := pilotGrossBenefit - pilotTotalCost in
  let riskAdjustedSavings := pilotNetValue * riskFactor in
  let revenueLiftPerRun := revenueLiftPerMonth in
  let throughputMultiplier :=
    if gt totalHoursFuture 0 then totalHoursCurrent / totalHoursFuture else 1 in
  let additionalMonthlyCost :=
    Math_max (aiRecurringCostPerMonth - monthlySavings) 0 in
  let monthlyUplift := revenueLiftPerMonth in
  let verdict :=
    if gt additionalMonthlyCost 0 && gt monthlyUplift additionalMonthlyCost
    then ("AI Performance Investment"%string, true)
    else if gt monthlySavings aiRecurringCostPerMonth
    then ("Cost Savings Initiative"%string, false)
    else ("Neutral"%string, false) in
  let classification := fst verdict in
  let showNetBenefitTooltip := snd verdict in
  {| totalHoursCurrent := totalHoursCurrent;
     totalHoursFuture := totalHoursFuture;
     costCurrent := costCurrent;
     costFuture := costFuture;
     monthlySavings := monthlySavings;
     aiRecurringCostPerMonth := aiRecurringCostPerMonth;
     trainingCostOneTime := calculatedTrainingCost;
     revenueLiftPerRun := Some revenueLiftPerRun;
     monthlyNetBenefit := monthlyNetBenefit;
     roiPercentage := roiPercentage;
     paybackMonths := paybackMonths;
     pilot3MonthSavings := pilotNetValue;
     riskAdjustedSavings := riskAdjustedSavings;
     throughputMultiplier := Some throughputMultiplier;
     additionalMonthlyCost := Some additionalMonthlyCost;
     monthlyUplift := Some monthlyUplift;
     classification := Some classification;
     showNetBenefitTooltip := Some showNetBenefitTooltip |}.

Definition generateScenarios
    (tasks : list WorkflowTask) (recommendedTools : list RecommendedTool)
    (teamSize averageHourlyCost : float) (revenueModel : option RevenueModel)
    (trainingCostOneTime runsPerMonth : option float) : list Scenario :=
  let trainingCostOneTime := default trainingCostOneTime 5000 in
  let runsPerMonth := default runsPerMonth 10 in
  [ {| scenario_name := Conservative;
       multiplier := 0.7;
       calculation :=
         calculateROI tasks recommendedTools teamSize averageHourlyCost revenueModel
           (Some trainingCostOneTime) (Some runsPerMonth) (Some 0.7) |};
    {| scenario_name := Base;
       multiplier := 1.0;
       calculation :=
         calculateROI tasks recommendedTools teamSize averageHourlyCost revenueModel
           (Some trainingCostOneTime) (Some runsPerMonth) (Some 1.0) |};
    {| scenario_name := Aggressive;
       multiplier := 1.3;
       calculation :=
         calculateROI tasks recommendedTools teamSize averageHourlyCost revenueModel
           (Some trainingCostOneTime) (Some runsPerMonth) (Some 1.3) |} ].

(** *** The clamp of the tasks in the handler [POST] of the route *)

(** A task as it arrives in the answer of the benchmark service.  The
    answer is parsed JSON that nothing has validated: each number is a
    JSON number, or missing. *)
Record RawTask : Type := mkRawTask {
  raw_name : string;
  raw_hoursPerRun : option float;
  raw_aiCoveragePct : option float;
  raw_efficiencyGainPct : option float
}.

(** [Math.min] converts its arguments to numbers: [undefined] to [NaN]. *)
Definition toNumber (x : option float) : float :=
  match x with
  | Some f => f
  | None => nan
  end.

(** The [map] callback that clamps a task to the documented ranges. *)
Definition clampTask (task : RawTask) : WorkflowTask :=
  {| name := raw_name task;
     hoursPerRun := Math_max 0.5 (Math_min (toNumber (raw_hoursPerRun task)) 40);
     aiCoveragePct := Math_max 0 (Math_min (toNumber (raw_aiCoveragePct task)) 100);
     efficiencyGainPct := Math_max 0 (Math_min (toNumber (raw_efficiencyGainPct task)) 100) |}.

End Binary64.

(** ** Definitions used by the statements on binary64 numbers *)

(** The task of the worked example of the specification. *)
Definition exampleTask64 : Binary64.WorkflowTask :=
  Binary64.mkTask "example" 10 50 40.

(** A task that automation slows down: its coverage is out of range. *)
Definition slowerTask64 : Binary64.WorkflowTask :=
  Binary64.mkTask "slower" 10 (-50) 40.

(** Three tasks of 0.9, 0.8 and 0.7 hours that AI does not touch. *)
Definition shortTasks64 : list Binary64.WorkflowTask :=
  [ Binary64.mkTask "a" 0.9 0 0; Binary64.mkTask "b" 0.8 0 0; Binary64.mkTask "c" 0.7 0 0 ].

(** An hourly cost near the largest binary64 number. *)
Definition hugeHourlyCost : float := 1e308.

(** The worked example at that hourly cost. *)
Definition overflowing : Binary64.ROICalculation :=
  Binary64.calculateROI [exampleTask64] [] 5 hugeHourlyCost None
    (Some 5000%float) (Some 10%float) (Some 1%float).


(** The documented ranges of a task, as the comparisons of JavaScript
    decide them. *)
Definition task_in_range64 (task : Binary64.WorkflowTask) : bool :=
  ((0.5 <=? Binary64.hoursPerRun task) && (Binary64.hoursPerRun task <=? 40) &&
   (0 <=? Binary64.aiCoveragePct task) && (Binary64.aiCoveragePct task <=? 100) &&
   (0 <=? Binary64.efficiencyGainPct task) && (Binary64.efficiencyGainPct task <=? 100))%float.

(** A number of the answer that is there, and is a number. *)
Definition present (x : option float) : Prop :=
  exists f, x = Some f /\ is_nan f = false.



(** ** Facts about the JavaScript operators *)

Section Operators.

Lemma gt_true_iff (x y : Q) : JS.gt x y = true <-> y < x.
Proof.
  unfold JS.gt. rewrite negb_true_iff.
  split; intros H.
  - apply Qnot_le_lt. intros Hle. apply Qle_bool_iff in Hle. congruence.
  - destruct (Qle_bool x y) eqn:E; [|reflexivity].
    apply Qle_bool_iff in E. exfalso. revert E. apply Qlt_not_le, H.
Qed.

Lemma gt_false_iff (x y : Q) : JS.gt x y = false <-> x <= y.
Proof.
  unfold JS.gt. rewrite negb_false_iff. apply Qle_bool_iff.
Qed.


Lemma or_zero_eq (x : Q) : JS.or (Some x) 0 == x.
Proof.
  unfold JS.or. destruct (Qeq_bool x 0) eqn:E; [|reflexivity].
  apply Qeq_bool_eq in E. symmetry. exact E.
Qed.

End Operators.

(** C2. The worked example of the specification: one task of 10 hours,
    50 % coverage and 40 % gain, no tools, no revenue model, hourly cost 75,
    training cost 5000, 10 runs a month and multiplier 1.0, for any team
    size, gives the figures of the specification. *)
Theorem worked_example (n : string) (teamSize : Q) :
  let task := exampleTask n in
  let r := calculateROI [task] [] teamSize 75 None (Some 5000) (Some 10) (Some 1) in
  let effectiveEfficiency :=
    calculateEffectiveEfficiency (aiCoveragePct task) (efficiencyGainPct task) in
  let hoursSavedPerRun := calculateHoursSavedPerRun (hoursPerRun task) effectiveEfficiency in
  let futureHoursPerRun := calculateFutureHoursPerRun (hoursPerRun task) hoursSavedPerRun in
  effectiveEfficiency == 20 /\
  hoursSavedPerRun == 2 /\
  futureHoursPerRun == 8 /\
  totalHoursCurrent r == 100 /\
  totalHoursFuture r == 80 /\
  costCurrent r == 7500 /\
  costFuture r == 6000 /\
  monthlySavings r == 1500 /\
  aiRecurringCostPerMonth r == 0 /\
  monthlyNetBenefit r == 1500 /\
  eq_number_or_infinity (paybackMonths r) (JS.Finite (5000 / 1500)) /\
  classification r = Some "Cost Savings Initiative"%string.
Proof.
  cbv zeta. repeat split; vm_compute; reflexivity.
Qed.

(** ** Labor savings and their floor *)

(** C9. [calculateLaborCosts] applies no floor: its [savings] is the plain
    difference of the two costs, which is negative as soon as the future
    hours exceed the current ones at a positive hourly cost; the floor at 0
    is the [Math.max] that [calculateROI] applies to that value. *)
Theorem calculateLaborCosts_no_floor :
  (forall totalHoursCurrent totalHoursFuture averageHourlyCost : Q,
     savings (calculateLaborCosts totalHoursCurrent totalHoursFuture averageHourlyCost)
     = totalHoursCurrent * averageHourlyCost - totalHoursFuture * averageHourlyCost) /\
  (forall totalHoursCurrent totalHoursFuture averageHourlyCost : Q,
     totalHoursCurrent < totalHoursFuture -> 0 < averageHourlyCost ->
     savings (calculateLaborCosts totalHoursCurrent totalHoursFuture averageHourlyCost) < 0) /\
  savings (calculateLaborCosts 1 2 75) < 0 /\
  (forall tasks tools teamSize averageHourlyCost revenueModel
          trainingCost runsPerMonth scenarioMultiplier,
     let r := calculateROI tasks tools teamSize averageHourlyCost revenueModel
                trainingCost runsPerMonth scenarioMultiplier in
     monthlySavings r =
       JS.Math_max
         (savings (calculateLaborCosts (totalHoursCurrent r) (totalHoursFuture r)
                     averageHourlyCost)) 0).
Proof.
  split; [reflexivity|]. split; [|split; [vm_compute; reflexivity | reflexivity]].
  intros c f a Hcf Ha. unfold calculateLaborCosts. cbn [savings].
  apply (Qmult_lt_compat_r _ _ a) in Hcf; [|exact Ha].
  apply Qlt_minus_iff in Hcf. apply Qlt_minus_iff.
  setoid_replace (0 + - (c * a - f * a)) with (f * a + - (c * a)) by ring.
  exact Hcf.
Qed.

Lemma calculateLaborCosts_no_floor_witness :
  savings (calculateLaborCosts 3 4 50) < 0.
Proof.
  apply (proj1 (proj2 calculateLaborCosts_no_floor) 3 4 50); reflexivity.
Defined.

(** ** Technology costs *)

Lemma fold_addTool_per_account (teamSize : Q) (tools : list RecommendedTool) :
  Forall (fun tool => billingModel tool = per_account) tools ->
  forall sum,
    fold_left (addTool teamSize) tools sum
    = fold_left (fun sum tool => sum + JS.or (accountCostPerMonth tool) 0) tools sum.
Proof.
  induction 1 as [|tool tools Htool _ IH]; intros sum; [reflexivity|].
  cbn [fold_left]. rewrite IH. unfold addTool. rewrite Htool. reflexivity.
Qed.

(** C10. On a catalog whose tools are all billed per account the recurring
    cost does not depend on the team size: two team sizes give the same
    [recurringPerMonth], which is the sum of the [accountCostPerMonth]
    fields, an absent one counting 0 and [licensePerUser] not being read. *)
Theorem per_account_teamSize_noninterference
    (tools : list RecommendedTool) (teamSize1 teamSize2 : Q)
    (trainingCost1 trainingCost2 : option Q) :
  Forall (fun tool => billingModel tool = per_account) tools ->
  recurringPerMonth (calculateTechCosts tools teamSize1 trainingCost1)
  = recurringPerMonth (calculateTechCosts tools teamSize2 trainingCost2) /\
  recurringPerMonth (calculateTechCosts tools teamSize1 trainingCost1) = accountCosts tools /\
  (forall name license, addTool teamSize1 0 (mkTool name per_account license None) == 0).
Proof.
  intros H. unfold calculateTechCosts, accountCosts. cbn [recurringPerMonth].
  rewrite !(fold_addTool_per_account _ _ H). repeat split.
Qed.

Lemma per_account_teamSize_noninterference_witness :
  let tools := [ mkTool "crm" per_account (Some 30) (Some 2000);
                 mkTool "mail" per_account None None ] in
  recurringPerMonth (calculateTechCosts tools 5 None)
  = recurringPerMonth (calculateTechCosts tools 250 (Some 100)).
Proof.
  cbv zeta.
  apply (per_account_teamSize_noninterference _ 5 250 None (Some 100)).
  repeat constructor.
Defined.

(** ** The synthesizer: guards, revenue uplift and classification *)

Section Synthesizer.

Variables (tasks : list WorkflowTask) (tools : list RecommendedTool).
Variables (teamSize averageHourlyCost : Q) (revenueModel : option RevenueModel).
Variables (trainingCost runsPerMonth scenarioMultiplier : option Q).

Let r := calculateROI tasks tools teamSize averageHourlyCost revenueModel
           trainingCost runsPerMonth scenarioMultiplier.

Lemma trainingCostOneTime_passes_through :
  trainingCostOneTime r = JS.default trainingCost 5000.
Proof. reflexivity. Qed.

Lemma paybackMonths_cases :
  (0 < monthlyNetBenefit r /\
   paybackMonths r = JS.Finite (trainingCostOneTime r / monthlyNetBenefit r)) \/
  (monthlyNetBenefit r <= 0 /\ paybackMonths r = JS.Infinity).
Proof.
  destruct (JS.gt (monthlyNetBenefit r) 0) eqn:E.
  - left. split; [apply gt_true_iff, E|].
    subst r. unfold calculateROI in *. cbn -[Qdiv JS.gt] in *. rewrite E. reflexivity.
  - right. split; [apply gt_false_iff, E|].
    subst r. unfold calculateROI in *. cbn -[Qdiv JS.gt] in *. rewrite E. reflexivity.
Qed.

Lemma roiPercentage_cases :
  (0 < totalInvestmentOverHorizon r /\
   roiPercentage r
   = totalNetBenefitOverHorizon r / totalInvestmentOverHorizon r * 100) \/
  (totalInvestmentOverHorizon r <= 0 /\ roiPercentage r = 0).
Proof.
  destruct (JS.gt (totalInvestmentOverHorizon r) 0) eqn:E.
  - left. split; [apply gt_true_iff, E|].
    subst r. unfold totalInvestmentOverHorizon, totalNetBenefitOverHorizon, calculateROI in *.
    cbn -[Qdiv JS.gt] in *. rewrite E. reflexivity.
  - right. split; [apply gt_false_iff, E|].
    subst r. unfold totalInvestmentOverHorizon, totalNetBenefitOverHorizon, calculateROI in *.
    cbn -[Qdiv JS.gt] in *. rewrite E. reflexivity.
Qed.

Lemma throughputMultiplier_cases :
  (0 < totalHoursFuture r /\
   throughputMultiplier r = Some (totalHoursCurrent r / totalHoursFuture r)) \/
  (totalHoursFuture r <= 0 /\ throughputMultiplier r = Some 1).
Proof.
  destruct (JS.gt (totalHoursFuture r) 0) eqn:E.
  - left. split; [apply gt_true_iff, E|].
    subst r. unfold calculateROI in *. cbn -[Qdiv JS.gt] in *. rewrite E. reflexivity.
  - right. split; [apply gt_false_iff, E|].
    subst r. unfold calculateROI in *. cbn -[Qdiv JS.gt] in *. rewrite E. reflexivity.
Qed.

End Synthesizer.

(** C4. [paybackMonths] is [trainingCostOneTime / monthlyNetBenefit] when
    the monthly net benefit is positive and [Infinity] when it is not; the
    division is only ever made by a positive number, and with a training
    cost that is not negative the payback period is not negative. *)
Theorem paybackMonths_guarded
    (tasks : list WorkflowTask) (tools : list RecommendedTool)
    (teamSize averageHourlyCost : Q) (revenueModel : option RevenueModel)
    (trainingCost runsPerMonth scenarioMultiplier : option Q) :
  let r := calculateROI tasks tools teamSize averageHourlyCost revenueModel
             trainingCost runsPerMonth scenarioMultiplier in
  (0 < monthlyNetBenefit r ->
   paybackMonths r = JS.Finite (trainingCostOneTime r / monthlyNetBenefit r)) /\
  (monthlyNetBenefit r <= 0 -> paybackMonths r = JS.Infinity) /\
  (forall q, paybackMonths r = JS.Finite q ->
     0 < monthlyNetBenefit r /\ q = trainingCostOneTime r / monthlyNetBenefit r) /\
  (0 <= JS.default trainingCost 5000 ->
   match paybackMonths r with
   | JS.Finite q => 0 <= q
   | JS.Infinity => True
   end) /\
  trainingCostOneTime r = JS.default trainingCost 5000.
Proof.
  intros r.
  pose proof (paybackMonths_cases tasks tools teamSize averageHourlyCost revenueModel
                trainingCost runsPerMonth scenarioMultiplier) as H.
  cbv zeta in H. fold r in H.
  assert (Ht : trainingCostOneTime r = JS.default trainingCost 5000) by reflexivity.
  split; [|split; [|split; [|split; [|exact Ht]]]].
  - intros Hpos. destruct H as [[_ H]|[Hle _]]; [exact H|].
    exfalso. revert Hle. apply Qlt_not_le, Hpos.
  - intros Hle. destruct H as [[Hpos _]|[_ H]]; [|exact H].
    exfalso. revert Hle. apply Qlt_not_le, Hpos.
  - intros q Hq. destruct H as [[Hpos H]|[_ H]]; rewrite H in Hq; [|discriminate].
    injection Hq as <-. split; [exact Hpos|reflexivity].
  - intros Hnonneg. rewrite <- Ht in Hnonneg.
    destruct H as [[Hpos H]|[_ H]]; rewrite H; [|exact I].
    unfold Qdiv. apply Qmult_le_0_compat; [exact Hnonneg|].
    apply Qlt_le_weak, Qinv_lt_0_compat, Hpos.
Qed.

Lemma paybackMonths_guarded_witness :
  let r := calculateROI [exampleTask "t"] [] 5 75 None (Some 5000) (Some 10) (Some 1) in
  paybackMonths r = JS.Finite (trainingCostOneTime r / monthlyNetBenefit r).
Proof.
  cbv zeta.
  apply (paybackMonths_guarded [exampleTask "t"] [] 5 75 None (Some 5000) (Some 10) (Some 1)).
  vm_compute. reflexivity.
Defined.

(** The second example of the specification: the tool of 2000 a month
    turns the net benefit negative and the payback period is [Infinity]. *)
Example payback_infinite :
  let tool := mkTool "suite" per_account None (Some 2000) in
  let r := calculateROI [exampleTask "t"] [tool] 5 75 None (Some 5000) (Some 10) (Some 1) in
  aiRecurringCostPerMonth r == 2000 /\
  monthlyNetBenefit r == -500 /\
  paybackMonths r = JS.Infinity /\
  classification r = Some "Neutral"%string.
Proof. cbv zeta. repeat split; vm_compute; reflexivity. Qed.

(** The third example of the specification: with a revenue model on top of
    the tool the uplift pays for the added cost. *)
Example performance_investment :
  let tool := mkTool "suite" per_account None (Some 2000) in
  let model := mkRevenueModel (Some 1000) (Some 10) in
  let r := calculateROI [exampleTask "t"] [tool] 5 75 (Some model)
             (Some 5000) (Some 10) (Some 1) in
  (exists lift, monthlyUplift r = Some lift /\ lift == 1000) /\
  monthlyNetBenefit r == 500 /\
  (exists cost, additionalMonthlyCost r = Some cost /\ cost == 500) /\
  classification r = Some "AI Performance Investment"%string /\
  showNetBenefitTooltip r = Some true.
Proof.
  cbv zeta. repeat split; try (vm_compute; reflexivity).
  all: eexists; split; [reflexivity|]; vm_compute; reflexivity.
Qed.

(** C5. The classification goes by first match.  With
    [additionalMonthlyCost = Math.max(aiRecurringCostPerMonth - monthlySavings, 0)]:
    a positive additional cost below the revenue lift gives
    "AI Performance Investment" and the tooltip flag; otherwise savings
    above the recurring cost give "Cost Savings Initiative"; otherwise the
    result is "Neutral"; the flag is false in the last two cases. *)
Theorem classification_first_match
    (tasks : list WorkflowTask) (tools : list RecommendedTool)
    (teamSize averageHourlyCost : Q) (revenueModel : option RevenueModel)
    (trainingCost runsPerMonth scenarioMultiplier : option Q) :
  let r := calculateROI tasks tools teamSize averageHourlyCost revenueModel
             trainingCost runsPerMonth scenarioMultiplier in
  exists additional revenueLiftPerMonth : Q,
    additional = JS.Math_max (aiRecurringCostPerMonth r - monthlySavings r) 0 /\
    additionalMonthlyCost r = Some additional /\
    monthlyUplift r = Some revenueLiftPerMonth /\
    revenueLiftPerRun r = Some revenueLiftPerMonth /\
    (0 < additional /\ additional < revenueLiftPerMonth ->
     classification r = Some "AI Performance Investment"%string /\
     showNetBenefitTooltip r = Some true) /\
    (~ (0 < additional /\ additional < revenueLiftPerMonth) ->
     aiRecurringCostPerMonth r < monthlySavings r ->
     classification r = Some "Cost Savings Initiative"%string /\
     showNetBenefitTooltip r = Some false) /\
    (~ (0 < additional /\ additional < revenueLiftPerMonth) ->
     ~ aiRecurringCostPerMonth r < monthlySavings r ->
     classification r = Some "Neutral"%string /\
     showNetBenefitTooltip r = Some false).
Proof.
  intros r. eexists. eexists.
  split; [reflexivity|]. split; [reflexivity|]. split; [reflexivity|].
  split; [reflexivity|].
  subst r. unfold calculateROI.
  cbn -[Qdiv JS.gt JS.Math_max calculateTotalHours calculateRevenueImpact].
  set (additional := JS.Math_max _ 0).
  set (lift := JS.or _ 0).
  set (saved := JS.Math_max _ 0).
  set (recurring := fold_left _ tools 0).
  destruct (JS.gt additional 0) eqn:E1; cbn [andb].
  - destruct (JS.gt lift additional) eqn:E2.
    + apply gt_true_iff in E1, E2. cbn [fst snd].
      split; [intros _; split; reflexivity|].
      split; intros Hn; exfalso; apply Hn; split; assumption.
    + apply gt_false_iff in E2.
      assert (Hn : ~ (0 < additional /\ additional < lift)).
      { intros [_ H]. revert E2. apply Qlt_not_le, H. }
      split; [intros H; exfalso; apply Hn, H|].
      destruct (JS.gt saved recurring) eqn:E3; cbn [fst snd].
      * apply gt_true_iff in E3.
        split; [intros _ _; split; reflexivity|]. intros _ H. exfalso. apply H, E3.
      * apply gt_false_iff in E3.
        split; [|intros _ _; split; reflexivity].
        intros _ H. exfalso. revert E3. apply Qlt_not_le, H.
  - apply gt_false_iff in E1.
    assert (Hn : ~ (0 < additional /\ additional < lift)).
    { intros [H _]. revert E1. apply Qlt_not_le, H. }
    split; [intros H; exfalso; apply Hn, H|].
    destruct (JS.gt saved recurring) eqn:E3; cbn [fst snd].
    + apply gt_true_iff in E3.
      split; [intros _ _; split; reflexivity|]. intros _ H. exfalso. apply H, E3.
    + apply gt_false_iff in E3.
      split; [|intros _ _; split; reflexivity].
      intros _ H. exfalso. revert E3. apply Qlt_not_le, H.
Qed.

(** ** Revenue uplift *)

Lemma truthy_iff (x : option Q) :
  JS.truthy x = true <-> exists q, x = Some q /\ ~ q == 0.
Proof.
  destruct x as [q|]; cbn [JS.truthy].
  - rewrite negb_true_iff. split.
    + intros E. exists q. split; [reflexivity|].
      intros H. apply Qeq_bool_iff in H. congruence.
    + intros [q' [[= <-] H]]. destruct (Qeq_bool q 0) eqn:E; [|reflexivity].
      exfalso. apply H, Qeq_bool_iff, E.
  - split; [discriminate|]. intros [q [H _]]. discriminate.
Qed.

Lemma calculateRevenueImpact_truthy
    (model : RevenueModel) (asset lift : Q) (runsPerMonth : option Q) :
  revenuePerAsset model = Some asset ->
  expectedIncrementalConversionLiftPct model = Some lift ->
  ~ asset == 0 -> ~ lift == 0 ->
  calculateRevenueImpact (Some model) runsPerMonth
  = Some (asset * (lift / 100) * JS.default runsPerMonth 10).
Proof.
  intros Ha Hl Ha0 Hl0. unfold calculateRevenueImpact. cbn [optField].
  rewrite Ha, Hl.
  assert (Ta : JS.truthy (Some asset) = true) by (apply truthy_iff; eauto).
  assert (Tl : JS.truthy (Some lift) = true) by (apply truthy_iff; eauto).
  rewrite Ta, Tl. reflexivity.
Qed.

Lemma calculateRevenueImpact_falsy
    (revenueModel : option RevenueModel) (runsPerMonth : option Q) :
  ~ (exists model asset lift,
       revenueModel = Some model /\
       revenuePerAsset model = Some asset /\
       expectedIncrementalConversionLiftPct model = Some lift /\
       ~ asset == 0 /\ ~ lift == 0) ->
  calculateRevenueImpact revenueModel runsPerMonth = None.
Proof.
  intros Hn. unfold calculateRevenueImpact.
  destruct (JS.truthy (optField revenueModel revenuePerAsset)) eqn:Ta; [|reflexivity].
  destruct (JS.truthy (optField revenueModel expectedIncrementalConversionLiftPct)) eqn:Tl;
    [|reflexivity].
  exfalso. apply Hn.
  apply truthy_iff in Ta, Tl.
  destruct Ta as [asset [Ha Ha0]], Tl as [lift [Hl Hl0]].
  destruct revenueModel as [model|]; [|discriminate].
  exists model, asset, lift. auto.
Qed.

(** C6. The revenue lift that [calculateROI] uses is
    [revenuePerAsset * (expectedIncrementalConversionLiftPct / 100) *
    Math.max(runsPerMonth, 0)] when the revenue model is given and both
    fields are truthy (present and not zero), and 0 in every other case,
    a model with a field equal to 0 included. *)
Theorem revenueLift_truthiness
    (tasks : list WorkflowTask) (tools : list RecommendedTool)
    (teamSize averageHourlyCost : Q) (revenueModel : option RevenueModel)
    (trainingCost runsPerMonth scenarioMultiplier : option Q) :
  let r := calculateROI tasks tools teamSize averageHourlyCost revenueModel
             trainingCost runsPerMonth scenarioMultiplier in
  let runs := JS.default runsPerMonth 10 in
  (forall model asset lift,
     revenueModel = Some model ->
     revenuePerAsset model = Some asset ->
     expectedIncrementalConversionLiftPct model = Some lift ->
     ~ asset == 0 -> ~ lift == 0 ->
     exists revenueLiftPerMonth,
       monthlyUplift r = Some revenueLiftPerMonth /\
       revenueLiftPerRun r = Some revenueLiftPerMonth /\
       revenueLiftPerMonth == asset * (lift / 100) * JS.Math_max runs 0) /\
  (~ (exists model asset lift,
        revenueModel = Some model /\
        revenuePerAsset model = Some asset /\
        expectedIncrementalConversionLiftPct model = Some lift /\
        ~ asset == 0 /\ ~ lift == 0) ->
   monthlyUplift r = Some 0 /\ revenueLiftPerRun r = Some 0) /\
  (forall model,
     revenueModel = Some model ->
     revenuePerAsset model = Some 0 \/
     expectedIncrementalConversionLiftPct model = Some 0 ->
     monthlyUplift r = Some 0 /\ revenueLiftPerRun r = Some 0).
Proof.
  intros r runs.
  assert (Hfalsy :
    ~ (exists model asset lift,
         revenueModel = Some model /\
         revenuePerAsset model = Some asset /\
         expectedIncrementalConversionLiftPct model = Some lift /\
         ~ asset == 0 /\ ~ lift == 0) ->
    monthlyUplift r = Some 0 /\ revenueLiftPerRun r = Some 0).
  { intros Hn. subst r. unfold calculateROI. cbn [monthlyUplift revenueLiftPerRun].
    rewrite (calculateRevenueImpact_falsy _ _ Hn). split; reflexivity. }
  split; [|split; [exact Hfalsy|]].
  - intros model asset lift -> Ha Hl Ha0 Hl0.
    eexists. split; [reflexivity|]. split; [reflexivity|].
    rewrite (calculateRevenueImpact_truthy model asset lift _ Ha Hl Ha0 Hl0).
    rewrite or_zero_eq. reflexivity.
  - intros model -> Hzero. apply Hfalsy.
    intros [model' [asset [lift [[= <-] [Ha [Hl [Ha0 Hl0]]]]]]].
    destruct Hzero as [Hz|Hz].
    + rewrite Hz in Ha. injection Ha as <-. apply Ha0. reflexivity.
    + rewrite Hz in Hl. injection Hl as <-. apply Hl0. reflexivity.
Qed.

Lemma revenueLift_truthiness_witness :
  let model := mkRevenueModel (Some 1000) (Some 10) in
  let r := calculateROI [exampleTask "t"] [] 5 75 (Some model)
             (Some 5000) (Some 10) (Some 1) in
  exists revenueLiftPerMonth,
    monthlyUplift r = Some revenueLiftPerMonth /\
    revenueLiftPerRun r = Some revenueLiftPerMonth /\
    revenueLiftPerMonth == 1000 * (10 / 100) * JS.Math_max 10 0.
Proof.
  cbv zeta.
  apply (proj1 (revenueLift_truthiness [exampleTask "t"] [] 5 75
                  (Some (mkRevenueModel (Some 1000) (Some 10)))
                  (Some 5000) (Some 10) (Some 1))
               (mkRevenueModel (Some 1000) (Some 10)) 1000 10);
    try reflexivity; intros H; discriminate H.
Defined.

(** A revenue model whose lift is 0, and one whose asset revenue is
    absent, count as no revenue model at all. *)
Example revenueLift_zero_field :
  calculateRevenueImpact (Some (mkRevenueModel (Some 1000) (Some 0))) (Some 10) = None /\
  calculateRevenueImpact (Some (mkRevenueModel None (Some 10))) (Some 10) = None /\
  calculateRevenueImpact None (Some 10) = None.
Proof. repeat split. Qed.

(** ** Scenarios *)

Section Scenarios.






End Scenarios.



(** The three scenarios of the worked example differ: 1050, 1500 and 1950
    a month. *)
Example scenario_values :
  map (fun s => Qred (monthlyNetBenefit (calculation s)))
    (generateScenarios [exampleTask "t"] [] 5 75 None None None)
  = [1050; 1500; 1950].
Proof. vm_compute. reflexivity. Qed.

(** * The engine on binary64 numbers *)

(** ** Comparisons of binary64 numbers

    The comparisons of the kernel are specified by [SFcompare] on the
    sign, mantissa and exponent of their arguments. *)

Section Binary64Comparisons.

Local Open Scope float_scope.

Lemma SFcompare_antisym (x y : spec_float) :
  SFcompare y x = option_map CompOpp (SFcompare x y).
Proof.
  destruct x as [sx|sx| |sx mx ex], y as [sy|sy| |sy my ey]; simpl; try reflexivity;
    try (destruct sx; reflexivity); try (destruct sy; reflexivity);
    try (destruct sx, sy; reflexivity).
  f_equal. destruct sx, sy; try reflexivity.
  - rewrite (Z.compare_antisym ex ey).
    destruct (ex ?= ey)%Z; simpl; try reflexivity.
    f_equal. apply ZC4.
  - rewrite (Z.compare_antisym ex ey).
    destruct (ex ?= ey)%Z; simpl; try reflexivity.
    apply ZC4.
Qed.

Lemma SFcompare_refl (x : spec_float) :
  x <> S754_nan -> SFcompare x x = Some Eq.
Proof.
  destruct x as [s|s| |s m e]; simpl; intros H; try reflexivity.
  - destruct s; reflexivity.
  - contradiction H; reflexivity.
  - rewrite Z.compare_refl. f_equal.
    destruct s; [change (CompOpp (Pos.compare_cont Eq m m) = Eq)|change (Pos.compare_cont Eq m m = Eq)];
      rewrite Pcompare_refl; reflexivity.
Qed.

Lemma SFcompare_defined (x y : spec_float) :
  x <> S754_nan -> y <> S754_nan -> exists c, SFcompare x y = Some c.
Proof.
  intros Hx Hy.
  destruct x as [sx|sx| |sx mx ex], y as [sy|sy| |sy my ey]; simpl;
    try (contradiction Hx; reflexivity); try (contradiction Hy; reflexivity);
    eexists; reflexivity.
Qed.

Lemma is_nan_false (x : float) : is_nan x = false -> Prim2SF x <> S754_nan.
Proof.
  unfold is_nan. rewrite eqb_spec. intros H E. rewrite E in H. discriminate H.
Qed.

Lemma is_nan_true (x : float) : is_nan x = true -> x = nan.
Proof.
  unfold is_nan. rewrite eqb_spec. intros H.
  apply Prim2SF_inj. change (Prim2SF nan) with S754_nan.
  destruct (Prim2SF x) as [s|s| |s m e] eqn:E; try reflexivity.
  all: unfold SFeqb in H; rewrite SFcompare_refl in H by discriminate; discriminate H.
Qed.

Lemma float_leb_refl (x : float) : is_nan x = false -> (x <=? x) = true.
Proof.
  intros H. apply is_nan_false in H.
  rewrite leb_spec. unfold SFleb. rewrite SFcompare_refl by exact H. reflexivity.
Qed.

Lemma float_ltb_leb (x y : float) : (x <? y) = true -> (x <=? y) = true.
Proof.
  rewrite ltb_spec, leb_spec. unfold SFltb, SFleb.
  destruct (SFcompare (Prim2SF x) (Prim2SF y)) as [[| |]|]; intros H;
    first [reflexivity | discriminate H].
Qed.

Lemma float_not_ltb_leb (x y : float) :
  is_nan x = false -> is_nan y = false -> (x <? y) = false -> (y <=? x) = true.
Proof.
  intros Hx Hy. apply is_nan_false in Hx. apply is_nan_false in Hy.
  rewrite ltb_spec, leb_spec. unfold SFltb, SFleb.
  rewrite (SFcompare_antisym (Prim2SF x) (Prim2SF y)).
  destruct (SFcompare_defined _ _ Hx Hy) as [c ->].
  destruct c; simpl; intros H; first [reflexivity | discriminate H].
Qed.

Lemma float_ltb_not_nan (x y : float) :
  (x <? y) = true -> is_nan x = false /\ is_nan y = false.
Proof.
  rewrite ltb_spec. unfold SFltb. intros H.
  split.
  - destruct (is_nan x) eqn:E; [|reflexivity].
    apply is_nan_true in E. subst x. change (Prim2SF nan) with S754_nan in H.
    discriminate H.
  - destruct (is_nan y) eqn:E; [|reflexivity].
    apply is_nan_true in E. subst y. change (Prim2SF nan) with S754_nan in H.
    destruct (Prim2SF x); discriminate H.
Qed.


End Binary64Comparisons.

Section Binary64Equal.

Local Open Scope float_scope.

Lemma SFcompare_Eq (x y : spec_float) :
  SFcompare x y = Some Eq ->
  x = y \/ (exists sx sy, x = S754_zero sx /\ y = S754_zero sy).
Proof.
  destruct x as [sx|sx| |sx mx ex], y as [sy|sy| |sy my ey]; simpl; intros H;
    try discriminate H.
  - right. exists sx, sy. split; reflexivity.
  - destruct sy; discriminate H.
  - destruct sy; discriminate H.
  - destruct sx; discriminate H.
  - destruct sx, sy; first [discriminate H | left; reflexivity].
  - destruct sx; discriminate H.
  - destruct sx; discriminate H.
  - destruct sy; discriminate H.
  - left.
    destruct sx, sy; try discriminate H;
      destruct (ex ?= ey)%Z eqn:E; try discriminate H;
      apply Z.compare_eq in E; subst ey.
    + assert (Hm : Pos.compare_cont Eq mx my = Eq).
      { destruct (Pos.compare_cont Eq mx my) eqn:Em; first [reflexivity | discriminate H]. }
      apply Pcompare_Eq_eq in Hm. subst my. reflexivity.
    + assert (Hm : Pos.compare_cont Eq mx my = Eq).
      { injection H as H. exact H. }
      apply Pcompare_Eq_eq in Hm. subst my. reflexivity.
Qed.

Lemma SFcompare_zero_l (sx sy : bool) (z : spec_float) :
  SFcompare (S754_zero sx) z = SFcompare (S754_zero sy) z.
Proof. destruct z; reflexivity. Qed.

Lemma SFcompare_zero_r (sx sy : bool) (z : spec_float) :
  SFcompare z (S754_zero sx) = SFcompare z (S754_zero sy).
Proof. destruct z; reflexivity. Qed.

(** Two numbers that [===] holds equal compare alike with a third. *)
Lemma float_eqb_compare (x y z : float) :
  (x =? y) = true ->
  SFcompare (Prim2SF x) (Prim2SF z) = SFcompare (Prim2SF y) (Prim2SF z) /\
  SFcompare (Prim2SF z) (Prim2SF x) = SFcompare (Prim2SF z) (Prim2SF y).
Proof.
  rewrite eqb_spec. unfold SFeqb. intros H.
  assert (E : SFcompare (Prim2SF x) (Prim2SF y) = Some Eq).
  { destruct (SFcompare (Prim2SF x) (Prim2SF y)) as [[| |]|];
      first [reflexivity | discriminate H]. }
  destruct (SFcompare_Eq _ _ E) as [-> | [sx [sy [-> ->]]]].
  - split; reflexivity.
  - split; [apply SFcompare_zero_l | apply SFcompare_zero_r].
Qed.

Lemma float_eqb_refl (x : float) : is_nan x = false -> (x =? x) = true.
Proof. unfold is_nan. destruct (x =? x); [reflexivity | discriminate]. Qed.

Lemma float_leb_not_ltb (x y : float) : (x <=? y) = true -> (y <? x) = false.
Proof.
  rewrite ltb_spec, leb_spec. unfold SFltb, SFleb.
  rewrite (SFcompare_antisym (Prim2SF x) (Prim2SF y)).
  destruct (SFcompare (Prim2SF x) (Prim2SF y)) as [[| |]|]; simpl; intros H;
    first [reflexivity | discriminate H].
Qed.

Lemma float_not_ltb_eqb (x y : float) :
  is_nan x = false -> is_nan y = false ->
  (x <? y) = false -> (y <? x) = false -> (x =? y) = true /\ (y =? x) = true.
Proof.
  intros Hx Hy. apply is_nan_false in Hx. apply is_nan_false in Hy.
  rewrite !ltb_spec, !eqb_spec. unfold SFltb, SFeqb.
  rewrite (SFcompare_antisym (Prim2SF x) (Prim2SF y)).
  destruct (SFcompare_defined _ _ Hx Hy) as [c ->].
  destruct c; simpl; intros H1 H2; first [split; reflexivity | discriminate].
Qed.

Lemma float_leb_not_nan (x y : float) :
  (x <=? y) = true -> is_nan x = false /\ is_nan y = false.
Proof.
  rewrite leb_spec. unfold SFleb. intros H.
  split.
  - destruct (is_nan x) eqn:E; [|reflexivity].
    apply is_nan_true in E. subst x. change (Prim2SF nan) with S754_nan in H.
    discriminate H.
  - destruct (is_nan y) eqn:E; [|reflexivity].
    apply is_nan_true in E. subst y. change (Prim2SF nan) with S754_nan in H.
    destruct (Prim2SF x); discriminate H.
Qed.

(** A number between the bounds is kept by the clamp: the result is
    [===] to it. *)
Lemma clamp64_keeps (lo hi x : float) :
  (lo <=? x) = true -> (x <=? hi) = true ->
  (Binary64.Math_max lo (Binary64.Math_min x hi) =? x) = true.
Proof.
  intros Hlo Hhi.
  destruct (float_leb_not_nan _ _ Hlo) as [Nlo Nx].
  destruct (float_leb_not_nan _ _ Hhi) as [_ Nhi].
  assert (Hm : (Binary64.Math_min x hi =? x) = true /\
               is_nan (Binary64.Math_min x hi) = false).
  { unfold Binary64.Math_min. rewrite Nx, Nhi. cbn [orb].
    destruct (x <? hi) eqn:E1; [split; [apply float_eqb_refl|]; assumption|].
    rewrite (float_leb_not_ltb _ _ Hhi).
    destruct (get_sign x); [split; [apply float_eqb_refl|]; assumption|].
    split; [|assumption].
    apply (float_not_ltb_eqb x hi); try assumption. apply float_leb_not_ltb; exact Hhi. }
  destruct Hm as [Hm Nm].
  set (m := Binary64.Math_min x hi) in *.
  assert (Hlom : (m <? lo) = false).
  { rewrite ltb_spec. unfold SFltb.
    rewrite (proj1 (float_eqb_compare m x lo Hm)).
    pose proof (float_leb_not_ltb _ _ Hlo) as H. rewrite ltb_spec in H. exact H. }
  unfold Binary64.Math_max. rewrite Nlo, Nm. cbn [orb].
  destruct (lo <? m) eqn:E1; [exact Hm|].
  rewrite Hlom.
  destruct (get_sign lo); [exact Hm|].
  rewrite eqb_spec. unfold SFeqb.
  rewrite <- (proj2 (float_eqb_compare m x lo Hm)).
  pose proof (proj1 (float_not_ltb_eqb lo m Nlo Nm E1 Hlom)) as H.
  rewrite eqb_spec in H. exact H.
Qed.

End Binary64Equal.

(** ** [Math.max], [Math.min] and the guard [> 0] *)

Section Binary64Operators.

Local Open Scope float_scope.

(** [Math.max] of two numbers, neither [NaN], is one of them and not
    below either. *)
Lemma Math_max64_spec (x y : float) :
  is_nan x = false -> is_nan y = false ->
  (Binary64.Math_max x y = x \/ Binary64.Math_max x y = y) /\
  (x <=? Binary64.Math_max x y) = true /\
  (y <=? Binary64.Math_max x y) = true.
Proof.
  intros Hx Hy. unfold Binary64.Math_max. rewrite Hx, Hy. simpl.
  destruct (x <? y) eqn:Hxy.
  - split; [right; reflexivity|]. split; [apply float_ltb_leb; exact Hxy | apply float_leb_refl; exact Hy].
  - destruct (y <? x) eqn:Hyx.
    + split; [left; reflexivity|]. split; [apply float_leb_refl; exact Hx | apply float_ltb_leb; exact Hyx].
    + destruct (get_sign x).
      * split; [right; reflexivity|].
        split; [apply float_not_ltb_leb; assumption | apply float_leb_refl; exact Hy].
      * split; [left; reflexivity|].
        split; [apply float_leb_refl; exact Hx | apply float_not_ltb_leb; assumption].
Qed.

Lemma Math_min64_spec (x y : float) :
  is_nan x = false -> is_nan y = false ->
  (Binary64.Math_min x y = x \/ Binary64.Math_min x y = y) /\
  (Binary64.Math_min x y <=? x) = true /\
  (Binary64.Math_min x y <=? y) = true.
Proof.
  intros Hx Hy. unfold Binary64.Math_min. rewrite Hx, Hy. simpl.
  destruct (x <? y) eqn:Hxy.
  - split; [left; reflexivity|]. split; [apply float_leb_refl; exact Hx | apply float_ltb_leb; exact Hxy].
  - destruct (y <? x) eqn:Hyx.
    + split; [right; reflexivity|]. split; [apply float_ltb_leb; exact Hyx | apply float_leb_refl; exact Hy].
    + destruct (get_sign x).
      * split; [left; reflexivity|].
        split; [apply float_leb_refl; exact Hx | apply float_not_ltb_leb; assumption].
      * split; [right; reflexivity|].
        split; [apply float_not_ltb_leb; assumption | apply float_leb_refl; exact Hy].
Qed.

Lemma Math_max64_nan_l (y : float) : Binary64.Math_max nan y = nan.
Proof. reflexivity. Qed.

Lemma Math_max64_nan (x y : float) :
  is_nan x = true -> Binary64.Math_max x y = nan.
Proof. intros H. unfold Binary64.Math_max. rewrite H. reflexivity. Qed.

Lemma Math_min64_nan (x y : float) :
  is_nan x = true -> Binary64.Math_min x y = nan.
Proof. intros H. unfold Binary64.Math_min. rewrite H. reflexivity. Qed.

Lemma Math_max64_below (x y : float) :
  (x <? y) = true -> Binary64.Math_max x y = y.
Proof.
  intros H. destruct (float_ltb_not_nan _ _ H) as [Hx Hy].
  unfold Binary64.Math_max. rewrite Hx, Hy, H. reflexivity.
Qed.


End Binary64Operators.

Section Binary64Clamp.

Local Open Scope float_scope.

Lemma clamp64_range (lo hi x : float) :
  is_nan lo = false -> is_nan hi = false -> (lo <=? hi) = true ->
  is_nan x = false ->
  let clamped := Binary64.Math_max lo (Binary64.Math_min x hi) in
  is_nan clamped = false /\ (lo <=? clamped) = true /\ (clamped <=? hi) = true.
Proof.
  intros Hlo Hhi Hlh Hx clamped.
  destruct (Math_min64_spec x hi Hx Hhi) as [Hmin [_ Hminhi]].
  assert (Hm : is_nan (Binary64.Math_min x hi) = false)
    by (destruct Hmin as [-> | ->]; assumption).
  destruct (Math_max64_spec lo (Binary64.Math_min x hi) Hlo Hm) as [Hmax [Hmaxlo _]].
  fold clamped in Hmax, Hmaxlo.
  split; [destruct Hmax as [-> | ->]; assumption|].
  split; [exact Hmaxlo|].
  destruct Hmax as [-> | ->]; assumption.
Qed.

Lemma clamp64_missing (lo hi : float) :
  Binary64.Math_max lo (Binary64.Math_min nan hi) = nan.
Proof.
  unfold Binary64.Math_max, Binary64.Math_min. cbn [is_nan].
  change (is_nan nan) with true. cbn. rewrite orb_true_r. reflexivity.
Qed.

End Binary64Clamp.

(** ** The aggregator on binary64 numbers *)

Section Binary64Sums.

Local Open Scope float_scope.

Lemma SF64add_comm (x y : spec_float) : SF64add x y = SF64add y x.
Proof.
  unfold SF64add.
  destruct x as [sx|sx| |sx mx ex], y as [sy|sy| |sy my ey]; simpl; try reflexivity;
    try (destruct sx, sy; reflexivity).
  rewrite (Z.min_comm ey ex).
  rewrite (Z.add_comm (cond_Zopp sy _)). reflexivity.
Qed.

Lemma float_add_comm (x y : float) : x + y = y + x.
Proof. apply Prim2SF_inj. rewrite !add_spec. apply SF64add_comm. Qed.

Lemma SF64add_zero_swap (a b : spec_float) :
  SF64add (SF64add (S754_zero false) a) b = SF64add (SF64add (S754_zero false) b) a.
Proof.
  destruct a as [sa|sa| |sa ma ea].
  - destruct b as [sb|sb| |sb mb eb]; destruct sa; try destruct sb; reflexivity.
  - destruct b as [sb|sb| |sb mb eb]; try destruct sb; destruct sa; reflexivity.
  - destruct b as [sb|sb| |sb mb eb]; try destruct sb; reflexivity.
  - destruct b as [sb|sb| |sb mb eb].
    + destruct sb; reflexivity.
    + reflexivity.
    + reflexivity.
    + change (SF64add (S754_zero false) (S754_finite sa ma ea)) with (S754_finite sa ma ea).
      change (SF64add (S754_zero false) (S754_finite sb mb eb)) with (S754_finite sb mb eb).
      apply SF64add_comm.
Qed.

(** Two numbers added to [0] give the same sum in both orders. *)
Lemma float_add_zero_swap (a b : float) : 0 + a + b = 0 + b + a.
Proof.
  apply Prim2SF_inj. rewrite !add_spec.
  change (Prim2SF 0) with (S754_zero false).
  apply SF64add_zero_swap.
Qed.

Lemma calculateTotalHours_pair (a b : Binary64.WorkflowTask) :
  Binary64.calculateTotalHours [a; b] = Binary64.calculateTotalHours [b; a].
Proof.
  unfold Binary64.calculateTotalHours. cbn [fold_left].
  unfold Binary64.addTask. cbn [Binary64.current Binary64.future].
  f_equal; apply float_add_zero_swap.
Qed.

End Binary64Sums.

(** C7. On binary64 numbers [calculateTotalHours] returns (0, 0) on the
    empty list and the same pair of totals for both orders of a list of
    at most two tasks.  With three tasks or more the order of the tasks
    can change the totals. *)
Theorem calculateTotalHours_order_of_two (tasks tasks' : list Binary64.WorkflowTask) :
  Permutation tasks tasks' -> (List.length tasks <= 2)%nat ->
  Binary64.calculateTotalHours tasks = Binary64.calculateTotalHours tasks' /\
  Binary64.calculateTotalHours []
  = {| Binary64.current := 0%float; Binary64.future := 0%float |}.
Proof.
  intros Hp Hlen. split; [|reflexivity].
  destruct tasks as [|a [|b [|c rest]]].
  - apply Permutation_nil in Hp. subst tasks'. reflexivity.
  - apply Permutation_length_1_inv in Hp. subst tasks'. reflexivity.
  - apply Permutation_length_2_inv in Hp. destruct Hp as [-> | ->].
    + reflexivity.
    + apply calculateTotalHours_pair.
  - cbn in Hlen. lia.
Qed.

Lemma calculateTotalHours_order_of_two_witness :
  Binary64.calculateTotalHours [exampleTask64; slowerTask64]
  = Binary64.calculateTotalHours [slowerTask64; exampleTask64] /\
  Binary64.calculateTotalHours []
  = {| Binary64.current := 0%float; Binary64.future := 0%float |}.
Proof.
  apply (calculateTotalHours_order_of_two
           [exampleTask64; slowerTask64] [slowerTask64; exampleTask64]).
  - apply perm_swap.
  - cbn. lia.
Defined.

(** Three tasks of 0.9, 0.8 and 0.7 hours add up to 2.4000000000000004
    hours in that order and to 2.4 hours in the reverse order. *)
Lemma calculateTotalHours_order_matters :
  Permutation shortTasks64 (rev shortTasks64) /\
  Binary64.current (Binary64.calculateTotalHours shortTasks64)
  = 2.4000000000000004%float /\
  Binary64.current (Binary64.calculateTotalHours (rev shortTasks64))
  = 2.4%float /\
  (2.4000000000000004 =? 2.4)%float = false /\
  Binary64.calculateTotalHours shortTasks64
  <> Binary64.calculateTotalHours (rev shortTasks64).
Proof.
  split; [apply Permutation_rev|].
  split; [vm_compute; reflexivity|].
  split; [vm_compute; reflexivity|].
  split; [vm_compute; reflexivity|].
  intros H.
  apply (f_equal (fun h => (Binary64.current h =? 2.4)%float)) in H.
  vm_compute in H. discriminate H.
Qed.

(** ** The synthesizer on binary64 numbers *)

Section Binary64Synthesizer.

Local Open Scope float_scope.

Variables (tasks : list Binary64.WorkflowTask) (tools : list Binary64.RecommendedTool).
Variables (teamSize averageHourlyCost : float) (revenueModel : option Binary64.RevenueModel).
Variables (trainingCost runsPerMonth scenarioMultiplier : option float).

Let r := Binary64.calculateROI tasks tools teamSize averageHourlyCost revenueModel
           trainingCost runsPerMonth scenarioMultiplier.

Lemma monthlySavings_is_floor :
  Binary64.monthlySavings r
  = Binary64.Math_max (Binary64.costCurrent r - Binary64.costFuture r) 0.
Proof. reflexivity. Qed.





End Binary64Synthesizer.

(** C3. On binary64 numbers, for every input of [calculateROI] the field
    [monthlySavings] is [Math.max(costCurrent - costFuture, 0)].  When the
    raw difference of the labor costs is a number, the field is not
    negative, and it is the raw difference or 0; when the raw difference
    is negative the field is 0.  When the raw difference is [NaN], as it
    is when both costs overflow to [Infinity], the field is [NaN]. *)
Theorem monthlySavings_floor_binary64
    (tasks : list Binary64.WorkflowTask) (tools : list Binary64.RecommendedTool)
    (teamSize averageHourlyCost : float) (revenueModel : option Binary64.RevenueModel)
    (trainingCost runsPerMonth scenarioMultiplier : option float) :
  let r := Binary64.calculateROI tasks tools teamSize averageHourlyCost revenueModel
             trainingCost runsPerMonth scenarioMultiplier in
  let raw := (Binary64.costCurrent r - Binary64.costFuture r)%float in
  Binary64.monthlySavings r = Binary64.Math_max raw 0 /\
  (is_nan raw = false ->
   (0 <=? Binary64.monthlySavings r)%float = true /\
   (Binary64.monthlySavings r = raw \/ Binary64.monthlySavings r = 0%float)) /\
  ((raw <? 0)%float = true -> Binary64.monthlySavings r = 0%float) /\
  (is_nan raw = true -> Binary64.monthlySavings r = nan).
Proof.
  intros r raw.
  assert (E : Binary64.monthlySavings r = Binary64.Math_max raw 0)
    by apply monthlySavings_is_floor.
  rewrite E. split; [reflexivity|]. split; [|split].
  - intros Hraw.
    destruct (Math_max64_spec raw 0 Hraw eq_refl) as [Hor [_ H0]].
    split; assumption.
  - apply Math_max64_below.
  - intros Hraw. apply Math_max64_nan. exact Hraw.
Qed.

Lemma monthlySavings_floor_binary64_witness :
  let r := Binary64.calculateROI [slowerTask64] [] 1 75 None None None None in
  ((Binary64.costCurrent r - Binary64.costFuture r <? 0)%float = true ->
   Binary64.monthlySavings r = 0%float) /\
  (Binary64.costCurrent r - Binary64.costFuture r <? 0)%float = true.
Proof.
  split.
  - apply (monthlySavings_floor_binary64 [slowerTask64] [] 1 75 None None None None).
  - vm_compute. reflexivity.
Defined.

(** The worked example at an hourly cost of 1e308: both labor costs are
    [Infinity], their difference and [monthlySavings] are [NaN], and
    [0 <= monthlySavings] is false. *)
Lemma monthlySavings_not_a_number :
  task_in_range64 exampleTask64 = true /\
  is_finite hugeHourlyCost = true /\
  Binary64.costCurrent overflowing = infinity /\
  Binary64.costFuture overflowing = infinity /\
  Binary64.monthlySavings overflowing = nan /\
  (0 <=? Binary64.monthlySavings overflowing)%float = false.
Proof. vm_compute. repeat split. Qed.



(** The worked example on binary64 numbers: the figures of the
    specification, with a payback of 3.3333333333333335 months. *)
Example worked_example_binary64 :
  let r := Binary64.calculateROI [exampleTask64] [] 5 75 None
             (Some 5000%float) (Some 10%float) (Some 1%float) in
  (Binary64.totalHoursCurrent r, Binary64.totalHoursFuture r,
   Binary64.costCurrent r, Binary64.costFuture r, Binary64.monthlySavings r)
  = (100, 80, 7500, 6000, 1500)%float /\
  (Binary64.aiRecurringCostPerMonth r, Binary64.monthlyNetBenefit r,
   Binary64.paybackMonths r)
  = (0, 1500, 3.3333333333333335)%float /\
  Binary64.classification r = Some "Cost Savings Initiative"%string.
Proof. vm_compute. repeat split. Qed.

(** ** The scenarios on binary64 numbers *)


(** Below the overflow the three scenarios of the worked example are in
    order on binary64 numbers too: 1050, 1500 and 1950 a month. *)
Example scenario_values_binary64 :
  map (fun s => Binary64.monthlyNetBenefit (Binary64.calculation s))
    (Binary64.generateScenarios [exampleTask64] [] 5 75 None None None)
  = [1050; 1500; 1950]%float.
Proof. vm_compute. reflexivity. Qed.

(** * Further properties of the engine *)

(** ** One task *)

Lemma task_bounds (hours coverage gain : Q) :
  0 <= hours -> 0 <= coverage <= 100 -> 0 <= gain <= 100 ->
  let effective := calculateEffectiveEfficiency coverage gain in
  let saved := calculateHoursSavedPerRun hours effective in
  let future := calculateFutureHoursPerRun hours saved in
  (0 <= effective <= gain /\ effective <= coverage) /\
  0 <= saved <= hours /\
  0 <= future <= hours.
Proof.
  intros Hh [Hc0 Hc1] [Hg0 Hg1].
  unfold calculateFutureHoursPerRun, calculateHoursSavedPerRun,
    calculateEffectiveEfficiency. cbv zeta.
  assert (He0 : 0 <= coverage * gain) by (apply Qmult_le_0_compat; assumption).
  assert (He1 : coverage * gain <= 100 * gain).
  { apply Qmult_le_compat_r; assumption. }
  assert (He2 : coverage * gain <= coverage * 100).
  { rewrite (Qmult_comm coverage gain), (Qmult_comm coverage 100).
    apply Qmult_le_compat_r; assumption. }
  set (e := coverage * gain / 100).
  assert (Ee : e == coverage * gain * (1 # 100)) by reflexivity.
  assert (Hs0 : 0 <= hours * (e / 100)).
  { apply Qmult_le_0_compat; [assumption|]. setoid_replace (e / 100) with (e * (1 # 100)) by reflexivity. lra. }
  assert (Hs1 : hours * (e / 100) <= hours * 1).
  { rewrite (Qmult_comm hours (e / 100)), (Qmult_comm hours 1).
    apply Qmult_le_compat_r; [|assumption].
    setoid_replace (e / 100) with (e * (1 # 100)) by reflexivity. lra. }
  repeat split; try lra.
Qed.



(** ** Totals of a task list *)

Lemma fold_addTask_bounds (tasks : list WorkflowTask) :
  Forall scenario_task tasks ->
  forall acc,
    0 <= future acc <= current acc ->
    0 <= future (fold_left addTask tasks acc)
      <= current (fold_left addTask tasks acc).
Proof.
  induction 1 as [|task tasks Htask _ IH]; intros acc Hacc; [exact Hacc|].
  cbn [fold_left]. apply IH.
  destruct Htask as [Hh [Hc Hg]].
  destruct (task_bounds _ _ _ Hh Hc Hg) as [_ [_ Hf]]. cbv zeta in Hf.
  unfold addTask. cbn [current future]. lra.
Qed.

Lemma calculateTotalHours_bounds_aux (tasks : list WorkflowTask) :
  Forall scenario_task tasks ->
  0 <= future (calculateTotalHours tasks) <= current (calculateTotalHours tasks).
Proof.
  intros H. unfold calculateTotalHours. apply fold_addTask_bounds; [exact H|].
  cbn [current future]. lra.
Qed.



(** ** Technology costs *)










(** ** What the scenarios share *)

Lemma fold_addTask_current (m1 m2 : Q) (tasks : list WorkflowTask) :
  forall acc1 acc2,
    current acc1 = current acc2 ->
    current (fold_left addTask (map (adjustTask m1) tasks) acc1)
    = current (fold_left addTask (map (adjustTask m2) tasks) acc2).
Proof.
  induction tasks as [|task tasks IH]; intros acc1 acc2 H; [exact H|].
  cbn [map fold_left]. apply IH.
  unfold addTask, adjustTask. cbn [current hoursPerRun]. rewrite H. reflexivity.
Qed.

(** X10. The scenario multiplier reaches the future hours only.  The three
    scenarios of [generateScenarios] carry the multipliers 0.7, 1 and 1.3
    and, for any input, the same current hours, current cost, recurring
    cost, training cost and revenue lift. *)
Theorem scenarios_share_the_present
    (tasks : list WorkflowTask) (tools : list RecommendedTool)
    (teamSize averageHourlyCost : Q) (revenueModel : option RevenueModel)
    (trainingCost runsPerMonth : option Q) :
  map multiplier
    (generateScenarios tasks tools teamSize averageHourlyCost revenueModel
       trainingCost runsPerMonth)
  = [7 # 10; 1; 13 # 10] /\
  forall s1 s2,
    In s1 (generateScenarios tasks tools teamSize averageHourlyCost revenueModel
             trainingCost runsPerMonth) ->
    In s2 (generateScenarios tasks tools teamSize averageHourlyCost revenueModel
             trainingCost runsPerMonth) ->
    totalHoursCurrent (calculation s1) = totalHoursCurrent (calculation s2) /\
    costCurrent (calculation s1) = costCurrent (calculation s2) /\
    aiRecurringCostPerMonth (calculation s1) = aiRecurringCostPerMonth (calculation s2) /\
    trainingCostOneTime (calculation s1) = trainingCostOneTime (calculation s2) /\
    revenueLiftPerRun (calculation s1) = revenueLiftPerRun (calculation s2).
Proof.
  split; [reflexivity|].
  assert (H : forall m1 m2,
    let r1 := calculateROI tasks tools teamSize averageHourlyCost revenueModel
                (Some (JS.default trainingCost 5000)) (Some (JS.default runsPerMonth 10))
                (Some m1) in
    let r2 := calculateROI tasks tools teamSize averageHourlyCost revenueModel
                (Some (JS.default trainingCost 5000)) (Some (JS.default runsPerMonth 10))
                (Some m2) in
    totalHoursCurrent r1 = totalHoursCurrent r2 /\
    costCurrent r1 = costCurrent r2 /\
    aiRecurringCostPerMonth r1 = aiRecurringCostPerMonth r2 /\
    trainingCostOneTime r1 = trainingCostOneTime r2 /\
    revenueLiftPerRun r1 = revenueLiftPerRun r2).
  { intros m1 m2. cbv zeta.
    assert (Hc : totalHoursCurrent
                   (calculateROI tasks tools teamSize averageHourlyCost revenueModel
                      (Some (JS.default trainingCost 5000))
                      (Some (JS.default runsPerMonth 10)) (Some m1))
                 = totalHoursCurrent
                     (calculateROI tasks tools teamSize averageHourlyCost revenueModel
                        (Some (JS.default trainingCost 5000))
                        (Some (JS.default runsPerMonth 10)) (Some m2))).
    { unfold calculateROI. cbn [totalHoursCurrent JS.default].
      f_equal. unfold calculateTotalHours. apply fold_addTask_current. reflexivity. }
    split; [exact Hc|]. split; [|repeat split].
    change (totalHoursCurrent
              (calculateROI tasks tools teamSize averageHourlyCost revenueModel
                 (Some (JS.default trainingCost 5000))
                 (Some (JS.default runsPerMonth 10)) (Some m1)) * averageHourlyCost
            = totalHoursCurrent
                (calculateROI tasks tools teamSize averageHourlyCost revenueModel
                   (Some (JS.default trainingCost 5000))
                   (Some (JS.default runsPerMonth 10)) (Some m2)) * averageHourlyCost).
    rewrite Hc. reflexivity. }
  intros s1 s2 H1 H2. unfold generateScenarios in H1, H2.
  cbn [In] in H1, H2.
  destruct H1 as [<-|[<-|[<-|[]]]]; destruct H2 as [<-|[<-|[<-|[]]]];
    cbn [calculation]; apply H.
Qed.

(** * The route: cleaning the answer of the benchmark service *)

(** ** The clamped tasks *)

(** X11. The clamp of the route on binary64 numbers.  It keeps the name
    of the task.  A task whose three numbers are there, and are numbers,
    comes out in the documented ranges (hours in [0.5, 40], both
    percentages in [0, 100]), and each number that was already in its
    range comes out [===] to what it was.  A number that is missing comes
    out as [NaN]: the clamp does not repair it, and the task is then not
    in range. *)
Theorem clampTask_in_range (task : Binary64.RawTask) :
  let clamped := Binary64.clampTask task in
  Binary64.name clamped = Binary64.raw_name task /\
  (present (Binary64.raw_hoursPerRun task) ->
   present (Binary64.raw_aiCoveragePct task) ->
   present (Binary64.raw_efficiencyGainPct task) ->
   task_in_range64 clamped = true) /\
  (forall hours,
     Binary64.raw_hoursPerRun task = Some hours ->
     (0.5 <=? hours)%float = true -> (hours <=? 40)%float = true ->
     (Binary64.hoursPerRun clamped =? hours)%float = true) /\
  (forall coverage,
     Binary64.raw_aiCoveragePct task = Some coverage ->
     (0 <=? coverage)%float = true -> (coverage <=? 100)%float = true ->
     (Binary64.aiCoveragePct clamped =? coverage)%float = true) /\
  (forall gain,
     Binary64.raw_efficiencyGainPct task = Some gain ->
     (0 <=? gain)%float = true -> (gain <=? 100)%float = true ->
     (Binary64.efficiencyGainPct clamped =? gain)%float = true) /\
  (Binary64.raw_hoursPerRun task = None -> Binary64.hoursPerRun clamped = nan) /\
  (Binary64.raw_aiCoveragePct task = None -> Binary64.aiCoveragePct clamped = nan) /\
  (Binary64.raw_efficiencyGainPct task = None ->
   Binary64.efficiencyGainPct clamped = nan) /\
  ((Binary64.raw_hoursPerRun task = None \/
    Binary64.raw_aiCoveragePct task = None \/
    Binary64.raw_efficiencyGainPct task = None) ->
   task_in_range64 clamped = false).
Proof.
  cbv zeta. unfold Binary64.clampTask, task_in_range64.
  cbn [Binary64.name Binary64.hoursPerRun Binary64.aiCoveragePct
       Binary64.efficiencyGainPct].
  split; [reflexivity|].
  split.
  { intros [h [-> Hh]] [c [-> Hc]] [g [-> Hg]]. cbn [Binary64.toNumber].
    destruct (clamp64_range 0.5 40 h eq_refl eq_refl eq_refl Hh) as [_ [-> ->]].
    destruct (clamp64_range 0 100 c eq_refl eq_refl eq_refl Hc) as [_ [-> ->]].
    destruct (clamp64_range 0 100 g eq_refl eq_refl eq_refl Hg) as [_ [-> ->]].
    reflexivity. }
  split; [intros h -> H1 H2; apply clamp64_keeps; assumption|].
  split; [intros c -> H1 H2; apply clamp64_keeps; assumption|].
  split; [intros g -> H1 H2; apply clamp64_keeps; assumption|].
  split; [intros ->; apply clamp64_missing|].
  split; [intros ->; apply clamp64_missing|].
  split; [intros ->; apply clamp64_missing|].
  intros [-> | [-> | ->]]; cbn [Binary64.toNumber]; rewrite clamp64_missing.
  - reflexivity.
  - change (0 <=? nan)%float with false. rewrite !andb_false_r. reflexivity.
  - change (0 <=? nan)%float with false. rewrite !andb_false_r. reflexivity.
Qed.

Lemma clampTask_in_range_witness :
  task_in_range64
    (Binary64.clampTask
       (Binary64.mkRawTask "wild" (Some 90%float) (Some (-5)%float) (Some 250%float)))
  = true.
Proof.
  apply (clampTask_in_range
           (Binary64.mkRawTask "wild" (Some 90%float) (Some (-5)%float) (Some 250%float)));
    eexists; split; reflexivity.
Defined.

(** An answer far out of range is brought to the nearest bounds; an
    answer without its hours keeps [NaN] hours. *)
Example clampTask_out_of_range :
  Binary64.clampTask
    (Binary64.mkRawTask "wild" (Some 90%float) (Some (-5)%float) (Some 250%float))
  = Binary64.mkTask "wild" 40 0 100 /\
  Binary64.clampTask (Binary64.mkRawTask "bare" None (Some 50%float) (Some 40%float))
  = Binary64.mkTask "bare" nan 50 40.
Proof. vm_compute. split; reflexivity. Qed.

(** ** Clamps of exact numbers *)

Lemma clamp_bounds (lo hi x : Q) :
  lo <= hi -> lo <= JS.Math_max lo (JS.Math_min x hi) <= hi.
Proof.
  intros H. unfold JS.Math_max, JS.Math_min. split.
  - apply Q.le_max_l.
  - apply Q.max_lub; [exact H | apply Q.le_min_r].
Qed.

Lemma clamp_fixes (lo hi x : Q) :
  lo <= x <= hi -> JS.Math_max lo (JS.Math_min x hi) == x.
Proof.
  intros [H1 H2]. unfold JS.Math_max, JS.Math_min.
  rewrite (Q.min_l x hi H2). apply Q.max_r, H1.
Qed.

(** ** Normalized tools *)

Lemma missingOrNotPositive_false (price : option Q) :
  Route.missingOrNotPositive price = false ->
  exists p, price = Some p /\ 0 < p.
Proof.
  unfold Route.missingOrNotPositive. intros H.
  apply orb_false_iff in H. destruct H as [H0 H].
  destruct price as [p|]; [|discriminate H0].
  exists p. split; [reflexivity|].
  apply Qnot_le_lt. intros Hle. apply Qle_bool_iff in Hle. congruence.
Qed.

Lemma missingOrNotPositive_positive (p : Q) :
  0 < p -> Route.missingOrNotPositive (Some p) = false.
Proof.
  intros H. unfold Route.missingOrNotPositive, JS.truthy.
  apply orb_false_iff. split.
  - rewrite negb_false_iff, negb_true_iff.
    destruct (Qeq_bool p 0) eqn:E; [|reflexivity].
    apply Qeq_bool_eq in E. rewrite E in H. discriminate.
  - destruct (Qle_bool p 0) eqn:E; [|reflexivity].
    apply Qle_bool_iff in E. exfalso. revert E. apply Qlt_not_le, H.
Qed.

Lemma or_fifty (other : option Q) :
  ~ JS.or other 50 == 0 /\ (cost_in_range other -> 0 < JS.or other 50).
Proof.
  destruct other as [o|]; cbn [JS.or cost_in_range]; [|split; [discriminate|reflexivity]].
  destruct (Qeq_bool o 0) eqn:E; [split; [discriminate|reflexivity]|].
  assert (Ho : ~ o == 0).
  { intros H. apply Qeq_bool_iff in H. congruence. }
  split; [exact Ho|]. intros H. apply Qle_lteq in H. destruct H as [H|H]; [exact H|].
  exfalso. apply Ho. symmetry. exact H.
Qed.

Lemma priceOrFallback_priced (own other : option Q) :
  exists price,
    Route.priceOrFallback own other = Some price /\
    ~ price == 0 /\
    (cost_in_range other -> 0 < price) /\
    (forall p, own = Some p -> 0 < p -> price = p).
Proof.
  unfold Route.priceOrFallback.
  destruct (Route.missingOrNotPositive own) eqn:E.
  - exists (JS.or other 50). split; [reflexivity|].
    destruct (or_fifty other) as [H1 H2]. split; [exact H1|]. split; [exact H2|].
    intros p -> Hp. rewrite (missingOrNotPositive_positive p Hp) in E. discriminate.
  - destruct (missingOrNotPositive_false own E) as [p [-> Hp]].
    exists p. split; [reflexivity|]. split.
    + intros H. rewrite H in Hp. discriminate.
    + split; [intros _; exact Hp|]. intros q [= <-] _. reflexivity.
Qed.


Lemma normalizeTool_priced_aux (tool : Route.RawTool) :
  let normalized := Route.normalizeTool tool in
  tool_name normalized = Route.raw_name tool /\
  (billingModel normalized = per_account
   <-> Route.raw_billingModel tool = Some "per_account"%string) /\
  exists price,
    priced normalized price /\
    ~ price == 0 /\
    (cost_in_range (Route.raw_licensePerUser tool) ->
     cost_in_range (Route.raw_accountCostPerMonth tool) -> 0 < price) /\
    (forall p,
       match billingModel normalized with
       | per_user => Route.raw_licensePerUser tool = Some p
       | per_account => Route.raw_accountCostPerMonth tool = Some p
       end -> 0 < p -> price = p).
Proof.
  cbv zeta. unfold Route.normalizeTool.
  assert (Hacc : Route.strictEq (Route.raw_billingModel tool) "per_account" = true
                 <-> Route.raw_billingModel tool = Some "per_account"%string).
  { unfold Route.strictEq. destruct (Route.raw_billingModel tool) as [v|].
    - rewrite String.eqb_eq. split; congruence.
    - split; discriminate. }
  assert (Huser : Route.strictEq (Route.raw_billingModel tool) "per_user" = true ->
                  Route.raw_billingModel tool <> Some "per_account"%string).
  { unfold Route.strictEq. destruct (Route.raw_billingModel tool) as [v|]; [|discriminate].
    rewrite String.eqb_eq. intros -> [= H]. }
  destruct (priceOrFallback_priced (Route.raw_licensePerUser tool)
              (Route.raw_accountCostPerMonth tool)) as [pu Hu].
  destruct (priceOrFallback_priced (Route.raw_accountCostPerMonth tool)
              (Route.raw_licensePerUser tool)) as [pa Ha].
  destruct (Route.strictEq (Route.raw_billingModel tool) "per_user") eqn:E1;
    [|destruct (Route.strictEq (Route.raw_billingModel tool) "per_account") eqn:E2];
    cbn [tool_name billingModel]; (split; [reflexivity|]); split.
  - split; [discriminate|]. intros H. exfalso. apply (Huser eq_refl), H.
  - exists pu. unfold priced. cbn [billingModel licensePerUser accountCostPerMonth].
    destruct Hu as [-> [H1 [H2 H3]]]. auto.
  - split; [intros _; apply Hacc; reflexivity | reflexivity].
  - exists pa. unfold priced. cbn [billingModel licensePerUser accountCostPerMonth].
    destruct Ha as [-> [H1 [H2 H3]]]. auto.
  - split; [discriminate|]. intros H. apply Hacc in H. discriminate.
  - exists pu. unfold priced. cbn [billingModel licensePerUser accountCostPerMonth].
    destruct Hu as [-> [H1 [H2 H3]]]. auto.
Qed.

(** X12. A normalized tool keeps its name, is billed per account exactly
    when the service said "per_account" and per user in every other case
    (a missing or unknown billing model included), and carries one price,
    on the field of its billing model: a price that is never 0, that is
    the price the service gave when that one was positive, and that is
    positive as soon as the prices the service gave are not negative. *)
Theorem normalizeTool_priced (tool : Route.RawTool) :
  let normalized := Route.normalizeTool tool in
  tool_name normalized = Route.raw_name tool /\
  (billingModel normalized = per_account
   <-> Route.raw_billingModel tool = Some "per_account"%string) /\
  exists price,
    priced normalized price /\
    ~ price == 0 /\
    (cost_in_range (Route.raw_licensePerUser tool) ->
     cost_in_range (Route.raw_accountCostPerMonth tool) -> 0 < price) /\
    (forall p,
       match billingModel normalized with
       | per_user => Route.raw_licensePerUser tool = Some p
       | per_account => Route.raw_accountCostPerMonth tool = Some p
       end -> 0 < p -> price = p).
Proof. apply normalizeTool_priced_aux. Qed.

(** A missing billing model with a missing licence takes the account price
    as the licence, even a negative one; with no price at all it takes 50. *)
Example normalizeTool_fallbacks :
  Route.normalizeTool (Route.mkRawTool "a" None None (Some (-5)))
  = mkTool "a" per_user (Some (-5)) None /\
  Route.normalizeTool (Route.mkRawTool "b" (Some "per_account"%string) (Some 0) None)
  = mkTool "b" per_account None (Some 50) /\
  Route.normalizeTool (Route.mkRawTool "c" (Some "per_seat"%string) (Some 12) (Some 400))
  = mkTool "c" per_user (Some 12) None.
Proof. repeat split. Qed.

(** ** The clamped revenue model *)

Lemma clampRevenueModel_not_negative (model : RevenueModel) :
  revenue_not_negative (Some (Route.clampRevenueModel model)).
Proof.
  unfold revenue_not_negative, Route.clampRevenueModel.
  cbn [revenuePerAsset expectedIncrementalConversionLiftPct]. split.
  - destruct (revenuePerAsset model) as [asset|]; [|exact I].
    destruct (JS.gt 0 asset) eqn:E; cbn [cost_in_range]; [apply Qle_refl|].
    apply gt_false_iff, E.
  - destruct (expectedIncrementalConversionLiftPct model) as [lift|]; [|exact I].
    cbn [cost_in_range]. apply clamp_bounds. discriminate.
Qed.

(** X13. After the clamp of the route a revenue model has no negative
    field and a lift of at most 100; a field that is absent stays absent,
    and a model whose fields are already in these ranges keeps its
    numbers. *)
Theorem clampRevenueModel_in_range (model : RevenueModel) :
  let clamped := Route.clampRevenueModel model in
  revenue_not_negative (Some clamped) /\
  (forall lift, expectedIncrementalConversionLiftPct clamped = Some lift -> lift <= 100) /\
  (revenuePerAsset clamped = None <-> revenuePerAsset model = None) /\
  (expectedIncrementalConversionLiftPct clamped = None
   <-> expectedIncrementalConversionLiftPct model = None) /\
  (forall asset, revenuePerAsset model = Some asset -> 0 <= asset ->
     revenuePerAsset clamped = Some asset) /\
  (forall lift, expectedIncrementalConversionLiftPct model = Some lift ->
     0 <= lift <= 100 ->
     exists lift', expectedIncrementalConversionLiftPct clamped = Some lift' /\ lift' == lift).
Proof.
  cbv zeta. split; [apply clampRevenueModel_not_negative|].
  unfold Route.clampRevenueModel.
  cbn [revenuePerAsset expectedIncrementalConversionLiftPct].
  split; [|split; [|split; [|split]]].
  - intros lift. destruct (expectedIncrementalConversionLiftPct model) as [l|]; [|discriminate].
    intros [= <-]. apply clamp_bounds. discriminate.
  - destruct (revenuePerAsset model) as [asset|]; [|split; reflexivity].
    destruct (JS.gt 0 asset); split; discriminate.
  - destruct (expectedIncrementalConversionLiftPct model); split; try discriminate; reflexivity.
  - intros asset -> H. apply gt_false_iff in H. rewrite H. reflexivity.
  - intros lift -> H. eexists. split; [reflexivity|]. apply clamp_fixes, H.
Qed.

Lemma clampRevenueModel_in_range_witness :
  revenuePerAsset (Route.clampRevenueModel (mkRevenueModel (Some 1000) (Some 10)))
  = Some 1000.
Proof.
  apply (proj1 (proj2 (proj2 (proj2 (proj2
           (clampRevenueModel_in_range (mkRevenueModel (Some 1000) (Some 10)))))))).
  - reflexivity.
  - discriminate.
Defined.

(** ** The filter of redundant tools *)

Section FilterFacts.

Variable toLowerCase : string -> string.

Lemma firstOfCategory_fst (member has isRedundant : bool) :
  fst (Route.firstOfCategory member has isRedundant) = isRedundant || (member && has).
Proof. destruct member, has, isRedundant; reflexivity. Qed.

Lemma firstOfCategory_snd (member has isRedundant : bool) :
  snd (Route.firstOfCategory member has isRedundant) = has || member.
Proof. destruct member, has, isRedundant; reflexivity. Qed.

(** Whether the loop body drops the tool. *)
Let dropped (hasDescript : bool) (st : Route.FilterState) (tool : RecommendedTool) : bool :=
  let transcription :=
    hasDescript && matchesAny toLowerCase Route.transcriptionOnlyTools tool in
  let video :=
    matchesAny toLowerCase Route.highEndVideoKeywords tool && Route.hasHighEndVideo st in
  let outreach :=
    matchesAny toLowerCase Route.outreachSequencerKeywords tool
    && Route.hasOutreachSequencer st in
  let enrichment :=
    matchesAny toLowerCase Route.enrichmentKeywords tool && Route.hasEnrichmentTool st in
  let automation :=
    matchesAny toLowerCase Route.automationKeywords tool && Route.hasAutomationTool st in
  let duplicate :=
    existsb (fun t => String.eqb (toLowerCase (tool_name t)) (toLowerCase (tool_name tool)))
      (Route.filtered st) in
  duplicate || ((((transcription || video) || outreach) || enrichment) || automation).

Lemma filterStep_filtered (hasDescript : bool) (st : Route.FilterState)
    (tool : RecommendedTool) :
  Route.filtered (Route.filterStep toLowerCase hasDescript st tool)
  = if dropped hasDescript st tool then Route.filtered st
    else Route.filtered st ++ [tool].
Proof.
  unfold Route.filterStep, dropped. cbn [Route.filtered]. cbv zeta.
  rewrite !firstOfCategory_fst.
  unfold matchesAny.
  set (n := toLowerCase (tool_name tool)).
  assert (R : (if hasDescript && Route.includesSome n Route.transcriptionOnlyTools
               then true
               else if Route.includes n "otter" && hasDescript then true else false)
              = hasDescript && Route.includesSome n Route.transcriptionOnlyTools).
  { cbn [Route.includesSome Route.transcriptionOnlyTools existsb].
    destruct hasDescript, (Route.includes n "otter"), (Route.includes n "trint"),
      (Route.includes n "sonix"); reflexivity. }
  rewrite R.
  destruct (existsb _ (Route.filtered st)); reflexivity.
Qed.

Lemma filterStep_flags (hasDescript : bool) (st : Route.FilterState)
    (tool : RecommendedTool) :
  Route.hasHighEndVideo (Route.filterStep toLowerCase hasDescript st tool)
  = Route.hasHighEndVideo st || matchesAny toLowerCase Route.highEndVideoKeywords tool /\
  Route.hasOutreachSequencer (Route.filterStep toLowerCase hasDescript st tool)
  = Route.hasOutreachSequencer st
    || matchesAny toLowerCase Route.outreachSequencerKeywords tool /\
  Route.hasEnrichmentTool (Route.filterStep toLowerCase hasDescript st tool)
  = Route.hasEnrichmentTool st || matchesAny toLowerCase Route.enrichmentKeywords tool /\
  Route.hasAutomationTool (Route.filterStep toLowerCase hasDescript st tool)
  = Route.hasAutomationTool st || matchesAny toLowerCase Route.automationKeywords tool.
Proof.
  unfold Route.filterStep.
  cbn [Route.hasHighEndVideo Route.hasOutreachSequencer Route.hasEnrichmentTool
       Route.hasAutomationTool].
  rewrite !firstOfCategory_snd. repeat split.
Qed.

(** *** Subsequences *)

Lemma Subsequence_refl {A : Type} (l : list A) : Subsequence l l.
Proof. induction l as [|x l IH]; [apply Subsequence_nil | apply Subsequence_keep, IH]. Qed.

Lemma Subsequence_snoc_drop {A : Type} (l l' : list A) (x : A) :
  Subsequence l l' -> Subsequence l (l' ++ [x]).
Proof.
  induction 1 as [|y l l' _ IH|y l l' _ IH]; cbn [app].
  - apply Subsequence_drop, Subsequence_nil.
  - apply Subsequence_drop, IH.
  - apply Subsequence_keep, IH.
Qed.

Lemma Subsequence_snoc_keep {A : Type} (l l' : list A) (x : A) :
  Subsequence l l' -> Subsequence (l ++ [x]) (l' ++ [x]).
Proof.
  induction 1 as [|y l l' _ IH|y l l' _ IH]; cbn [app].
  - apply Subsequence_keep, Subsequence_nil.
  - apply Subsequence_drop, IH.
  - apply Subsequence_keep, IH.
Qed.

Lemma Subsequence_Forall {A : Type} (P : A -> Prop) (l l' : list A) :
  Subsequence l l' -> Forall P l' -> Forall P l.
Proof.
  induction 1 as [|y l l' _ IH|y l l' _ IH]; intros H; [constructor | |].
  - apply IH. inversion H; assumption.
  - inversion H; subst. constructor; auto.
Qed.

Lemma Subsequence_In {A : Type} (l l' : list A) (x : A) :
  Subsequence l l' -> In x l -> In x l'.
Proof.
  induction 1 as [|y l l' _ IH|y l l' _ IH]; intros H; [exact H | right; auto |].
  destruct H as [->|H]; [left; reflexivity | right; auto].
Qed.

(** *** A loop and what it keeps true *)

Lemma fold_left_keeps {S T : Type} (f : S -> T -> S) (P : S -> list T -> Prop) :
  (forall st done x, P st done -> P (f st x) (done ++ [x])) ->
  forall l st done, P st done -> P (fold_left f l st) (done ++ l).
Proof.
  intros Hstep. induction l as [|x l IH]; intros st done H; cbn [fold_left].
  - rewrite app_nil_r. exact H.
  - replace (done ++ x :: l) with ((done ++ [x]) ++ l)
      by (rewrite <- app_assoc; reflexivity).
    apply IH, Hstep, H.
Qed.

(** *** What the loop of the filter keeps true *)

(** One category: while its flag is down no tool met so far is of the
    category, and at most one kept tool is. *)
Let one_of (keywords : list string) (has : bool)
    (kept done : list RecommendedTool) : Prop :=
  (has = false -> Forall (fun t => matchesAny toLowerCase keywords t = false) done) /\
  (List.length (filter (matchesAny toLowerCase keywords) kept) <= 1)%nat.

Lemma filter_none (keywords : list string) (l : list RecommendedTool) :
  Forall (fun t => matchesAny toLowerCase keywords t = false) l ->
  filter (matchesAny toLowerCase keywords) l = [].
Proof.
  induction 1 as [|t l Ht _ IH]; cbn [filter]; [reflexivity|].
  rewrite Ht. exact IH.
Qed.

Lemma one_of_step (keywords : list string) (has : bool)
    (kept kept' done : list RecommendedTool) (tool : RecommendedTool) :
  Subsequence kept done ->
  kept' = kept \/
  (kept' = kept ++ [tool] /\ matchesAny toLowerCase keywords tool && has = false) ->
  one_of keywords has kept done ->
  one_of keywords (has || matchesAny toLowerCase keywords tool) kept' (done ++ [tool]).
Proof.
  intros Hsub Hkept [Hflag Hlen]. split.
  - intros H. apply orb_false_iff in H. destruct H as [Hh Hm].
    apply Forall_app. split; [apply Hflag, Hh|]. constructor; [exact Hm | constructor].
  - destruct Hkept as [->|[-> H]]; [exact Hlen|].
    rewrite filter_app. cbn [filter].
    destruct (matchesAny toLowerCase keywords tool) eqn:Em.
    + cbn [andb] in H. subst has.
      rewrite (filter_none keywords kept).
      * cbn [app List.length]. apply Nat.le_refl.
      * eapply Subsequence_Forall; [exact Hsub | apply Hflag; reflexivity].
    + rewrite app_nil_r. exact Hlen.
Qed.

Let kept_well (hasDescript : bool) (st : Route.FilterState)
    (done : list RecommendedTool) : Prop :=
  Subsequence (Route.filtered st) done /\
  NoDup (map (fun t => toLowerCase (tool_name t)) (Route.filtered st)) /\
  (hasDescript = true ->
   Forall (fun t => matchesAny toLowerCase Route.transcriptionOnlyTools t = false)
     (Route.filtered st)) /\
  one_of Route.highEndVideoKeywords (Route.hasHighEndVideo st) (Route.filtered st) done /\
  one_of Route.outreachSequencerKeywords (Route.hasOutreachSequencer st)
    (Route.filtered st) done /\
  one_of Route.enrichmentKeywords (Route.hasEnrichmentTool st) (Route.filtered st) done /\
  one_of Route.automationKeywords (Route.hasAutomationTool st) (Route.filtered st) done.

Lemma existsb_same_name_false (l : list RecommendedTool) (tool : RecommendedTool) :
  existsb (fun t => String.eqb (toLowerCase (tool_name t)) (toLowerCase (tool_name tool))) l
  = false ->
  ~ In (toLowerCase (tool_name tool)) (map (fun t => toLowerCase (tool_name t)) l).
Proof.
  intros H Hin. apply in_map_iff in Hin. destruct Hin as [t [Ht Hin]].
  assert (E : existsb
                (fun t => String.eqb (toLowerCase (tool_name t)) (toLowerCase (tool_name tool)))
                l = true).
  { apply existsb_exists. exists t. split; [exact Hin|]. apply String.eqb_eq, Ht. }
  congruence.
Qed.

Lemma NoDup_snoc {A : Type} (l : list A) (x : A) :
  NoDup l -> ~ In x l -> NoDup (l ++ [x]).
Proof.
  intros Hl Hx. apply NoDup_app; [exact Hl | repeat constructor; intros [] |].
  intros y Hy [<-|[]]. exact (Hx Hy).
Qed.

Lemma kept_well_step (hasDescript : bool) (st : Route.FilterState)
    (done : list RecommendedTool) (tool : RecommendedTool) :
  kept_well hasDescript st done ->
  kept_well hasDescript (Route.filterStep toLowerCase hasDescript st tool) (done ++ [tool]).
Proof.
  intros [Hsub [Hnd [Htr [Hv [Ho [He Ha]]]]]].
  destruct (filterStep_flags hasDescript st tool) as [Fv [Fo [Fe Fa]]].
  pose proof (filterStep_filtered hasDescript st tool) as Ff.
  unfold kept_well. rewrite Fv, Fo, Fe, Fa.
  destruct (dropped hasDescript st tool) eqn:Ed; rewrite Ff.
  - split; [apply Subsequence_snoc_drop, Hsub|]. split; [exact Hnd|].
    split; [exact Htr|].
    split; [|split; [|split]];
      (apply (one_of_step _ _ (Route.filtered st));
       [exact Hsub | left; reflexivity | assumption]).
  - unfold dropped in Ed. cbv zeta in Ed.
    apply orb_false_iff in Ed. destruct Ed as [Edup Ed].
    repeat (apply orb_false_iff in Ed; destruct Ed as [Ed ?]).
    split; [apply Subsequence_snoc_keep, Hsub|]. split.
    { rewrite map_app. cbn [map]. apply NoDup_snoc; [exact Hnd|].
      apply existsb_same_name_false. assumption. }
    split.
    { intros Hd. apply Forall_app. split; [apply Htr, Hd|].
      constructor; [|constructor]. subst hasDescript. exact Ed. }
    split; [|split; [|split]];
      (apply (one_of_step _ _ (Route.filtered st));
       [exact Hsub | right; split; [reflexivity|assumption] | assumption]).
Qed.

Lemma filterRedundantTools_kept_well (tools : list RecommendedTool) :
  exists st,
    Route.filterRedundantTools toLowerCase tools = Route.filtered st /\
    kept_well (Route.hasDescriptIn toLowerCase tools) st tools.
Proof.
  eexists. split; [reflexivity|].
  apply (fold_left_keeps _ (kept_well (Route.hasDescriptIn toLowerCase tools)) 
           (kept_well_step _) tools _ []).
  unfold kept_well, one_of. cbn [Route.filtered map filter List.length].
  repeat split; try constructor; auto.
Qed.

Lemma filterRedundantTools_subsequence_aux (tools : list RecommendedTool) :
  Subsequence (Route.filterRedundantTools toLowerCase tools) tools.
Proof.
  destruct (filterRedundantTools_kept_well tools) as [st [-> [H _]]]. exact H.
Qed.

(** X14. The filter only drops tools: what it returns is the catalog with
    some tools left out, the others in their order. *)
Theorem filterRedundantTools_subsequence (tools : list RecommendedTool) :
  Subsequence (Route.filterRedundantTools toLowerCase tools) tools.
Proof. apply filterRedundantTools_subsequence_aux. Qed.

Lemma hasDescriptIn_Subsequence (kept tools : list RecommendedTool) :
  Subsequence kept tools ->
  Route.hasDescriptIn toLowerCase kept = true ->
  Route.hasDescriptIn toLowerCase tools = true.
Proof.
  unfold Route.hasDescriptIn. intros Hsub H.
  apply existsb_exists in H. destruct H as [n [Hin Hn]].
  apply existsb_exists. exists n. split; [|exact Hn].
  apply in_map_iff in Hin. destruct Hin as [t [Ht Hin]].
  apply in_map_iff. exists t. split; [exact Ht|].
  eapply Subsequence_In; eassumption.
Qed.

Lemma filterRedundantTools_irredundant (tools : list RecommendedTool) :
  irredundant toLowerCase (Route.filterRedundantTools toLowerCase tools) /\
  (Route.hasDescriptIn toLowerCase tools = true ->
   Forall (fun t => matchesAny toLowerCase Route.transcriptionOnlyTools t = false)
     (Route.filterRedundantTools toLowerCase tools)).
Proof.
  pose proof (filterRedundantTools_subsequence_aux tools) as Hsub.
  destruct (filterRedundantTools_kept_well tools)
    as [st [E [_ [Hnd [Htr [Hv [Ho [He Ha]]]]]]]].
  rewrite E in *. split; [|exact Htr].
  split; [exact Hnd|]. split.
  - intros keywords Hk. unfold exclusiveCategories in Hk. cbn [In] in Hk.
    destruct Hk as [<-|[<-|[<-|[<-|[]]]]];
      [apply Hv | apply Ho | apply He | apply Ha].
  - intros H. apply Htr. eapply hasDescriptIn_Subsequence; eassumption.
Qed.

(** X15. What the filter returns is free of the redundancies it looks for:
    the kept tools have distinct lowered names, at most one of them falls
    in each of the four exclusive categories (high-end video, outreach,
    enrichment, automation), and when a name of the catalog contains
    "descript" no kept tool is a transcription-only tool (otter, trint,
    sonix). *)
Theorem filterRedundantTools_no_redundancy (tools : list RecommendedTool) :
  let kept := Route.filterRedundantTools toLowerCase tools in
  NoDup (map (fun t => toLowerCase (tool_name t)) kept) /\
  (forall keywords, In keywords exclusiveCategories ->
     (List.length (filter (matchesAny toLowerCase keywords) kept) <= 1)%nat) /\
  (Route.hasDescriptIn toLowerCase tools = true ->
   Forall (fun t => matchesAny toLowerCase Route.transcriptionOnlyTools t = false) kept).
Proof.
  cbv zeta. destruct (filterRedundantTools_irredundant tools) as [[H1 [H2 _]] H3].
  auto.
Qed.

(** *** The catalogs that the filter leaves alone *)

Lemma existsb_filter_length {A : Type} (f : A -> bool) (l : list A) :
  existsb f l = true -> (1 <= List.length (filter f l))%nat.
Proof.
  induction l as [|x l IH]; cbn [existsb filter]; [discriminate|].
  destruct (f x); cbn [orb List.length]; [lia | exact IH].
Qed.

Lemma second_of_category (keywords : list string)
    (done rest : list RecommendedTool) (tool : RecommendedTool) :
  (List.length (filter (matchesAny toLowerCase keywords) (done ++ tool :: rest)) <= 1)%nat ->
  matchesAny toLowerCase keywords tool
  && existsb (matchesAny toLowerCase keywords) done = false.
Proof.
  intros H. rewrite filter_app in H. cbn [filter] in H.
  destruct (matchesAny toLowerCase keywords tool) eqn:Em; [|reflexivity].
  destruct (existsb (matchesAny toLowerCase keywords) done) eqn:Ee; [|reflexivity].
  apply existsb_filter_length in Ee.
  rewrite length_app in H. cbn [List.length] in H. lia.
Qed.

Lemma new_name (done rest : list RecommendedTool) (tool : RecommendedTool) :
  NoDup (map (fun t => toLowerCase (tool_name t)) (done ++ tool :: rest)) ->
  existsb (fun t => String.eqb (toLowerCase (tool_name t)) (toLowerCase (tool_name tool)))
    done = false.
Proof.
  intros H. rewrite map_app in H. cbn [map] in H. apply NoDup_remove_2 in H.
  destruct (existsb _ done) eqn:E; [|reflexivity].
  exfalso. apply H. apply existsb_exists in E. destruct E as [t [Hin Ht]].
  apply String.eqb_eq in Ht. apply in_or_app. left.
  apply in_map_iff. exists t. split; assumption.
Qed.

Lemma fold_filterStep_irredundant (hasDescript : bool) (rest : list RecommendedTool) :
  forall (done : list RecommendedTool) (st : Route.FilterState),
    Route.filtered st = done ->
    Route.hasHighEndVideo st
    = existsb (matchesAny toLowerCase Route.highEndVideoKeywords) done ->
    Route.hasOutreachSequencer st
    = existsb (matchesAny toLowerCase Route.outreachSequencerKeywords) done ->
    Route.hasEnrichmentTool st
    = existsb (matchesAny toLowerCase Route.enrichmentKeywords) done ->
    Route.hasAutomationTool st
    = existsb (matchesAny toLowerCase Route.automationKeywords) done ->
    NoDup (map (fun t => toLowerCase (tool_name t)) (done ++ rest)) ->
    (forall keywords, In keywords exclusiveCategories ->
       (List.length (filter (matchesAny toLowerCase keywords) (done ++ rest)) <= 1)%nat) ->
    (hasDescript = true ->
     Forall (fun t => matchesAny toLowerCase Route.transcriptionOnlyTools t = false)
       (done ++ rest)) ->
    Route.filtered (fold_left (Route.filterStep toLowerCase hasDescript) rest st)
    = done ++ rest.
Proof.
  induction rest as [|tool rest IH]; intros done st Hf Hv Ho He Ha Hnd Hcat Htr.
  - cbn [fold_left]. rewrite app_nil_r. exact Hf.
  - cbn [fold_left].
    destruct (filterStep_flags hasDescript st tool) as [Fv [Fo [Fe Fa]]].
    pose proof (filterStep_filtered hasDescript st tool) as Ff.
    assert (Ed : dropped hasDescript st tool = false).
    { unfold dropped. cbv zeta. rewrite Hf, Hv, Ho, He, Ha.
      rewrite (new_name done rest tool Hnd).
      rewrite (second_of_category Route.highEndVideoKeywords done rest tool),
        (second_of_category Route.outreachSequencerKeywords done rest tool),
        (second_of_category Route.enrichmentKeywords done rest tool),
        (second_of_category Route.automationKeywords done rest tool)
        by (apply Hcat; unfold exclusiveCategories; cbn [In]; auto).
      destruct hasDescript; [|reflexivity].
      specialize (Htr eq_refl). apply Forall_app in Htr. destruct Htr as [_ Htr].
      inversion Htr as [|? ? Ht _]; subst. rewrite Ht. reflexivity. }
    rewrite Ed in Ff.
    replace (done ++ tool :: rest) with ((done ++ [tool]) ++ rest) in *
      by (rewrite <- app_assoc; reflexivity).
    apply IH; try assumption.
    + rewrite Ff, Hf. reflexivity.
    + rewrite Fv, Hv, existsb_app. cbn [existsb]. rewrite orb_false_r. reflexivity.
    + rewrite Fo, Ho, existsb_app. cbn [existsb]. rewrite orb_false_r. reflexivity.
    + rewrite Fe, He, existsb_app. cbn [existsb]. rewrite orb_false_r. reflexivity.
    + rewrite Fa, Ha, existsb_app. cbn [existsb]. rewrite orb_false_r. reflexivity.
Qed.

Lemma filterRedundantTools_fixes (tools : list RecommendedTool) :
  irredundant toLowerCase tools ->
  Route.filterRedundantTools toLowerCase tools = tools.
Proof.
  intros [Hnd [Hcat Htr]]. unfold Route.filterRedundantTools. cbv zeta.
  apply (fold_filterStep_irredundant _ tools []); try reflexivity; assumption.
Qed.

(** X16. A catalog with nothing redundant passes the filter unchanged:
    when the lowered names are distinct, each exclusive category has at
    most one tool and no transcription-only tool stands beside Descript,
    the filter returns the catalog itself. *)
Theorem filterRedundantTools_keeps_irredundant (tools : list RecommendedTool) :
  irredundant toLowerCase tools ->
  Route.filterRedundantTools toLowerCase tools = tools.
Proof. apply filterRedundantTools_fixes. Qed.

(** X17. Filtering twice is filtering once. *)
Theorem filterRedundantTools_idempotent (tools : list RecommendedTool) :
  Route.filterRedundantTools toLowerCase
    (Route.filterRedundantTools toLowerCase tools)
  = Route.filterRedundantTools toLowerCase tools.
Proof.
  apply filterRedundantTools_fixes, filterRedundantTools_irredundant.
Qed.

End FilterFacts.

(** A catalog with a duplicate, two video tools, two sequencers and a
    transcription tool beside Descript. *)
Example filterRedundantTools_catalog :
  let tool n := mkTool n per_user (Some 20) None in
  Route.filterRedundantTools Route.asciiToLowerCase
    [ tool "Otter.ai"; tool "Descript"; tool "Runway Gen-4"; tool "Google Flow Pro";
      tool "Apollo.io"; tool "Smartlead.ai"; tool "DESCRIPT"; tool "Jasper" ]%string
  = [ tool "Descript"; tool "Runway Gen-4"; tool "Apollo.io"; tool "Jasper" ]%string.
Proof. reflexivity. Qed.

(** The filter can empty a catalog: a single tool whose name contains both
    "descript" and "otter" is dropped. *)
Example filterRedundantTools_empties :
  Route.filterRedundantTools Route.asciiToLowerCase
    [ mkTool "Descript + Otter bundle" per_account None (Some 40) ]
  = [].
Proof. reflexivity. Qed.

Lemma filterRedundantTools_keeps_irredundant_witness :
  let tools := [ mkTool "Descript" per_user (Some 24) None;
                 mkTool "Jasper" per_user (Some 49) None ] in
  Route.filterRedundantTools Route.asciiToLowerCase tools = tools.
Proof.
  cbv zeta. apply filterRedundantTools_keeps_irredundant.
  split; [|split].
  - repeat constructor; cbn; intuition discriminate.
  - intros keywords Hk. unfold exclusiveCategories in Hk. cbn [In] in Hk.
    destruct Hk as [<-|[<-|[<-|[<-|[]]]]]; vm_compute; lia.
  - intros _. repeat constructor.
Defined.

(** * The route: the rate limiter *)

Section RateLimiter.

Local Open Scope Z_scope.

Lemma mapSet_same (m : Route.RateLimitMap) (key : string) (value : Route.RateRecord) :
  Route.mapSet m key value key = Some value.
Proof. unfold Route.mapSet. rewrite String.eqb_refl. reflexivity. Qed.

Lemma mapSet_other (m : Route.RateLimitMap) (key other : string) (value : Route.RateRecord) :
  key <> other -> Route.mapSet m key value other = m other.
Proof.
  intros H. unfold Route.mapSet. destruct (String.eqb key other) eqn:E; [|reflexivity].
  apply String.eqb_eq in E. contradiction.
Qed.

Lemma store_ok_mapSet (m : Route.RateLimitMap) (key : string) (value : Route.RateRecord) :
  store_ok m -> record_ok value -> store_ok (Route.mapSet m key value).
Proof.
  intros Hm Hv identifier record. unfold Route.mapSet.
  destruct (String.eqb key identifier); [intros [= <-]; exact Hv | apply Hm].
Qed.

Lemma keepLastTwenty_length (l : list Z) :
  (List.length (Route.keepLastTwenty l) <= 20)%nat /\
  (l <> [] -> Route.keepLastTwenty l <> []).
Proof.
  unfold Route.keepLastTwenty.
  destruct (20 <? List.length l)%nat eqn:E.
  - apply Nat.ltb_lt in E. split.
    + rewrite length_skipn. lia.
    + intros _ H. apply (f_equal (@List.length Z)) in H.
      rewrite length_skipn in H. cbn [List.length] in H. lia.
  - apply Nat.ltb_ge in E. split; [exact E | auto].
Qed.

Lemma checkRateLimit_outcome (now : Z) (m : Route.RateLimitMap) (identifier : string) :
  outcome now m identifier
    (fst (Route.checkRateLimit now m identifier))
    (snd (Route.checkRateLimit now m identifier)).
Proof.
  unfold Route.checkRateLimit.
  destruct (m identifier) as [record|] eqn:Em.
  - destruct (now >? Route.resetTime record) eqn:Ew.
    + apply outcome_new_window. right. exists record. split; [exact Em|].
      apply Z.gtb_lt in Ew. lia.
    + assert (Hw : now <= Route.resetTime record).
      { destruct (Z.gtb_spec now (Route.resetTime record)); [discriminate | assumption]. }
      destruct (Route.isTooFast now (Route.timestamps record)) eqn:Ef.
      * apply outcome_too_fast; assumption.
      * destruct (Route.count record >=? Route.RATE_LIMIT_MAX_REQUESTS) eqn:Ec.
        -- apply (outcome_full now m identifier record); try assumption.
           apply Z.geb_le in Ec. lia.
        -- apply outcome_counted; try assumption.
           destruct (Z.geb_spec (Route.count record) Route.RATE_LIMIT_MAX_REQUESTS);
             [discriminate | assumption].
  - apply outcome_new_window. left. exact Em.
Qed.

Lemma keepLastTwenty_last (l : list Z) (x : Z) :
  last (Route.keepLastTwenty (l ++ [x])) 0 = x.
Proof.
  unfold Route.keepLastTwenty.
  destruct (20 <? List.length (l ++ [x]))%nat; [|apply last_last].
  rewrite length_app. cbn [List.length].
  rewrite skipn_app.
  replace (List.length l + 1 - 20 - List.length l)%nat with 0%nat by lia.
  cbn [skipn]. apply last_last.
Qed.

(** X20. The limiter keeps its store sound: if every record has a count
    between 1 and 10 and at least one timestamp, so it is after any call.
    The answer leaves between 0 and 9 requests; a request that is let
    through leaves a record whose count is 10 minus what remains, whose
    reset time is the one announced, whose last timestamp is the time of
    the call and which holds at most 20 timestamps; a request that is
    refused announces 0 remaining. *)
Theorem checkRateLimit_keeps_store
    (now : Z) (m : Route.RateLimitMap) (identifier : string) :
  store_ok m ->
  let answer := fst (Route.checkRateLimit now m identifier) in
  let store := snd (Route.checkRateLimit now m identifier) in
  store_ok store /\
  0 <= Route.remaining answer <= 9 /\
  (Route.allowed answer = true ->
   exists record,
     store identifier = Some record /\
     Route.remaining answer = Route.RATE_LIMIT_MAX_REQUESTS - Route.count record /\
     Route.limit_resetTime answer = Route.resetTime record /\
     last (Route.timestamps record) 0 = now /\
     (List.length (Route.timestamps record) <= 20)%nat) /\
  (Route.allowed answer = false -> Route.remaining answer = 0).
Proof.
  intros Hm. cbv zeta.
  destruct (checkRateLimit_outcome now m identifier)
    as [Hnew | record Hr Hw Hf | record Hr Hw Hf Hc | record Hr Hw Hf Hc].
  - cbn [Route.remaining Route.allowed Route.limit_resetTime].
    split; [|split; [|split]].
    + apply store_ok_mapSet; [exact Hm|]. split; cbn; [|discriminate].
      unfold Route.RATE_LIMIT_MAX_REQUESTS. lia.
    + unfold Route.RATE_LIMIT_MAX_REQUESTS. lia.
    + intros _. eexists. split; [apply mapSet_same|].
      cbn. repeat split; lia.
    + discriminate.
  - cbn [Route.remaining Route.allowed Route.limit_resetTime].
    split; [|split; [|split]].
    + apply store_ok_mapSet; [exact Hm|]. destruct (Hm _ _ Hr) as [Hc Ht].
      split; cbn [Route.count Route.timestamps]; [exact Hc|].
      intros H. apply app_eq_nil in H. destruct H as [_ H]. discriminate.
    + lia.
    + discriminate.
    + reflexivity.
  - cbn [Route.remaining Route.allowed Route.limit_resetTime].
    split; [exact Hm|]. split; [lia|]. split; [discriminate | reflexivity].
  - cbn [Route.remaining Route.allowed Route.limit_resetTime].
    destruct (Hm _ _ Hr) as [Hcount Ht].
    destruct (keepLastTwenty_length (Route.timestamps record ++ [now])) as [Hlen Hne].
    split; [|split; [|split]].
    + apply store_ok_mapSet; [exact Hm|].
      split; cbn [Route.count Route.timestamps]; [lia|].
      apply Hne. intros H. apply app_eq_nil in H. destruct H as [_ H]. discriminate.
    + unfold Route.RATE_LIMIT_MAX_REQUESTS in *. lia.
    + intros _. eexists. split; [apply mapSet_same|].
      cbn [Route.count Route.resetTime Route.timestamps].
      split; [reflexivity|]. split; [reflexivity|].
      split; [apply keepLastTwenty_last | exact Hlen].
    + discriminate.
Qed.

Lemma checkRateLimit_keeps_store_witness :
  let answer := fst (Route.checkRateLimit 1000 Route.emptyMap "10.0.0.1") in
  0 <= Route.remaining answer <= 9.
Proof.
  cbv zeta.
  apply (checkRateLimit_keeps_store 1000 Route.emptyMap "10.0.0.1").
  intros identifier record H. discriminate H.
Defined.

(** X21. A call touches the record of its own client only: the record of
    any other identifier is what it was. *)
Theorem checkRateLimit_other_clients
    (now : Z) (m : Route.RateLimitMap) (identifier other : string) :
  identifier <> other ->
  snd (Route.checkRateLimit now m identifier) other = m other.
Proof.
  intros H.
  destruct (checkRateLimit_outcome now m identifier); try reflexivity;
    apply mapSet_other, H.
Qed.

Lemma checkRateLimit_other_clients_witness :
  snd (Route.checkRateLimit 1000 Route.emptyMap "10.0.0.1") "10.0.0.2"%string = None.
Proof.
  apply (checkRateLimit_other_clients 1000 Route.emptyMap "10.0.0.1" "10.0.0.2").
  discriminate.
Defined.

(** X22. The status read after a request that was let through agrees with
    the answer to that request for as long as the record of the client
    in the store is the one that request left: from any such store, at
    any time up to the reset time, [getRateLimitStatus] reports the
    remaining count and the reset time of the answer.  Requests of other
    clients in between leave that record alone; a further request of the
    same client changes it, and the status then follows that request. *)
Theorem getRateLimitStatus_after_check
    (now later : Z) (m m' : Route.RateLimitMap) (identifier : string) :
  store_ok m ->
  let answer := fst (Route.checkRateLimit now m identifier) in
  let store := snd (Route.checkRateLimit now m identifier) in
  Route.allowed answer = true ->
  m' identifier = store identifier ->
  later <= Route.limit_resetTime answer ->
  Route.getRateLimitStatus later m' identifier
  = Route.mkRateStatus (Route.remaining answer) (Route.limit_resetTime answer).
Proof.
  intros Hm. cbv zeta.
  destruct (checkRateLimit_outcome now m identifier)
    as [Hnew | record Hr Hw Hf | record Hr Hw Hf Hc | record Hr Hw Hf Hc];
    cbn [Route.remaining Route.allowed Route.limit_resetTime]; try discriminate;
    intros _ Hsame Hlater; unfold Route.getRateLimitStatus; rewrite Hsame, mapSet_same;
    cbn [Route.resetTime Route.count].
  - destruct (Z.gtb_spec later (now + Route.RATE_LIMIT_WINDOW_MS)); [lia|].
    unfold Route.RATE_LIMIT_MAX_REQUESTS. reflexivity.
  - destruct (Z.gtb_spec later (Route.resetTime record)); [lia|].
    f_equal. unfold Route.RATE_LIMIT_MAX_REQUESTS in *. lia.
Qed.

Lemma getRateLimitStatus_after_check_witness :
  Route.getRateLimitStatus 1500
    (snd (Route.checkRateLimit 1200
            (snd (Route.checkRateLimit 1000 Route.emptyMap "10.0.0.1")) "10.0.0.2"))
    "10.0.0.1"
  = Route.mkRateStatus 9 61000.
Proof.
  apply (getRateLimitStatus_after_check 1000 1500 Route.emptyMap
           (snd (Route.checkRateLimit 1200
                   (snd (Route.checkRateLimit 1000 Route.emptyMap "10.0.0.1")) "10.0.0.2"))
           "10.0.0.1").
  - intros identifier record H. discriminate H.
  - reflexivity.
  - reflexivity.
  - cbn. discriminate.
Defined.

(** A second request of the same client, let through at 2500, moves the
    status: it then reports the 8 requests that are left after the second
    request, not the 9 of the answer to the first. *)
Example getRateLimitStatus_after_second_request :
  let first := Route.checkRateLimit 1000 Route.emptyMap "10.0.0.1" in
  let second := Route.checkRateLimit 2500 (snd first) "10.0.0.1" in
  Route.remaining (fst first) = 9 /\
  Route.allowed (fst second) = true /\
  Route.getRateLimitStatus 3000 (snd second) "10.0.0.1" = Route.mkRateStatus 8 61000.
Proof. vm_compute. repeat split. Qed.

End RateLimiter.

Section RateLimiterRuns.

Local Open Scope Z_scope.

Lemma checkAll_cons (now : Z) (later : list Z) (m : Route.RateLimitMap)
    (identifier : string) :
  fst (Route.checkAll (now :: later) m identifier)
  = fst (Route.checkRateLimit now m identifier)
    :: fst (Route.checkAll later (snd (Route.checkRateLimit now m identifier)) identifier).
Proof.
  cbn [Route.checkAll].
  destruct (Route.checkRateLimit now m identifier) as [answer store].
  cbn [fst snd].
  destruct (Route.checkAll later store identifier) as [answers final].
  reflexivity.
Qed.

Lemma checkAll_in_window (nows : list Z) (identifier : string) :
  forall (m : Route.RateLimitMap) (record : Route.RateRecord),
    m identifier = Some record ->
    Route.count record <= Route.RATE_LIMIT_MAX_REQUESTS ->
    Forall (fun now => now <= Route.resetTime record) nows ->
    Z.of_nat (allowedCount (fst (Route.checkAll nows m identifier)))
    <= Route.RATE_LIMIT_MAX_REQUESTS - Route.count record.
Proof.
  induction nows as [|now later IH]; intros m record Hr Hc Hw;
    unfold Route.RATE_LIMIT_MAX_REQUESTS in *.
  - change (Z.of_nat 0 <= 10 - Route.count record). lia.
  - inversion Hw as [|? ? Hnow Hlater]; subst.
    rewrite checkAll_cons. unfold allowedCount in *. cbn [filter].
    destruct (checkRateLimit_outcome now m identifier)
      as [Hnew | r Hr' _ Hf | r Hr' _ Hf Hfull | r Hr' _ Hf Hroom].
    + exfalso. destruct Hnew as [H|[r [H Hgt]]]; rewrite Hr in H; [discriminate|].
      injection H as <-. lia.
    + rewrite Hr in Hr'. injection Hr' as <-. cbn [Route.allowed].
      apply (IH _ (Route.mkRateRecord (Route.count record) (Route.resetTime record)
                     (Route.timestamps record ++ [now])));
        [apply mapSet_same | exact Hc | exact Hlater].
    + rewrite Hr in Hr'. injection Hr' as <-. cbn [Route.allowed].
      apply (IH _ record); assumption.
    + rewrite Hr in Hr'. injection Hr' as <-. cbn [Route.allowed List.length].
      unfold Route.RATE_LIMIT_MAX_REQUESTS in Hroom.
      set (next := Route.mkRateRecord (Route.count record + 1) (Route.resetTime record)
                     (Route.keepLastTwenty (Route.timestamps record ++ [now]))).
      pose proof (IH (Route.mapSet m identifier next) next (mapSet_same _ _ _)) as H.
      cbn [Route.count Route.resetTime next] in H.
      specialize (H ltac:(lia) Hlater). lia.
Qed.

(** X23. At most 10 requests of one client get through in one window.
    When the client has no record, or a record whose window is over, the
    request at [start] opens a window, and of that request and any later
    ones made up to 60 seconds after it, in any number and at any pace, at
    most 10 are let through. *)
Theorem checkRateLimit_window_cap
    (start : Z) (later : list Z) (m : Route.RateLimitMap) (identifier : string) :
  (m identifier = None \/
   exists record, m identifier = Some record /\ Route.resetTime record < start) ->
  Forall (fun now => now <= start + Route.RATE_LIMIT_WINDOW_MS) later ->
  (allowedCount (fst (Route.checkAll (start :: later) m identifier)) <= 10)%nat.
Proof.
  intros Hstart Hlater. rewrite checkAll_cons.
  destruct (checkRateLimit_outcome start m identifier)
    as [_ | r Hr Hw _ | r Hr Hw _ _ | r Hr Hw _ _].
  - unfold allowedCount. cbn [filter Route.allowed List.length].
    set (first := Route.mkRateRecord 1 (start + Route.RATE_LIMIT_WINDOW_MS) [start]).
    pose proof (checkAll_in_window later identifier (Route.mapSet m identifier first)
                  first (mapSet_same _ _ _)) as H.
    cbn [Route.count Route.resetTime first] in H.
    unfold allowedCount, Route.RATE_LIMIT_MAX_REQUESTS in H.
    specialize (H ltac:(lia) Hlater). lia.
  - exfalso. destruct Hstart as [H|[r' [H Hlt]]]; rewrite Hr in H; [discriminate|].
    injection H as <-. lia.
  - exfalso. destruct Hstart as [H|[r' [H Hlt]]]; rewrite Hr in H; [discriminate|].
    injection H as <-. lia.
  - exfalso. destruct Hstart as [H|[r' [H Hlt]]]; rewrite Hr in H; [discriminate|].
    injection H as <-. lia.
Qed.

Lemma checkRateLimit_window_cap_witness :
  (allowedCount
     (fst (Route.checkAll
             [0; 2000; 4000; 6000; 8000; 10000; 12000; 14000; 16000; 18000; 20000; 22000]%Z
             Route.emptyMap "10.0.0.1"))
   <= 10)%nat.
Proof.
  apply (checkRateLimit_window_cap 0
           [2000; 4000; 6000; 8000; 10000; 12000; 14000; 16000; 18000; 20000; 22000]
           Route.emptyMap "10.0.0.1").
  - left. reflexivity.
  - repeat constructor; cbn; discriminate.
Defined.

(** Twelve requests two seconds apart: ten get through, two do not. *)
Example checkRateLimit_twelve_requests :
  map Route.allowed
    (fst (Route.checkAll
            [0; 2000; 4000; 6000; 8000; 10000; 12000; 14000; 16000; 18000; 20000; 22000]
            Route.emptyMap "10.0.0.1"))
  = [true; true; true; true; true; true; true; true; true; true; false; false].
Proof. reflexivity. Qed.

Lemma isTooFast_hurried (now : Z) (timestamps : list Z) :
  timestamps <> [] ->
  now - last timestamps 0 < Route.MIN_REQUEST_INTERVAL_MS ->
  Route.isTooFast now timestamps = true.
Proof.
  intros Hne H. unfold Route.isTooFast.
  destruct timestamps as [|t ts]; [contradiction|].
  apply Z.ltb_lt, H.
Qed.

Lemma checkAll_hurried (nows : list Z) (identifier : string) :
  forall (m : Route.RateLimitMap) (record : Route.RateRecord),
    m identifier = Some record ->
    Route.timestamps record <> [] ->
    hurried (last (Route.timestamps record) 0) nows ->
    Forall (fun now => now <= Route.resetTime record) nows ->
    Forall (fun answer => Route.allowed answer = false /\ Route.tooFast answer = Some true)
      (fst (Route.checkAll nows m identifier)).
Proof.
  induction nows as [|now later IH]; intros m record Hr Hne Hh Hw.
  - constructor.
  - inversion Hw as [|? ? Hnow Hlater]; subst. destruct Hh as [Hgap Hh].
    rewrite checkAll_cons.
    pose proof (isTooFast_hurried now _ Hne Hgap) as Hfast.
    destruct (checkRateLimit_outcome now m identifier)
      as [Hnew | r Hr' _ Hf | r Hr' _ Hf _ | r Hr' _ Hf _].
    + exfalso. destruct Hnew as [H|[r [H Hgt]]]; rewrite Hr in H; [discriminate|].
      injection H as <-. lia.
    + rewrite Hr in Hr'. injection Hr' as <-.
      constructor; [split; reflexivity|].
      apply (IH _ (Route.mkRateRecord (Route.count record) (Route.resetTime record)
                     (Route.timestamps record ++ [now])));
        cbn [Route.timestamps Route.resetTime].
      * apply mapSet_same.
      * intros H. apply app_eq_nil in H. destruct H as [_ H]. discriminate.
      * rewrite last_last. exact Hh.
      * exact Hlater.
    + rewrite Hr in Hr'. injection Hr' as <-. congruence.
    + rewrite Hr in Hr'. injection Hr' as <-. congruence.
Qed.

(** X24. A client that does not wait is refused throughout.  Within a
    window, when each request comes less than one second after the one
    before (the first less than one second after the last recorded one),
    every one of them is refused as too fast, whatever the count: a refused
    request is recorded too, and restarts the second of waiting. *)
Theorem checkRateLimit_hurried
    (nows : list Z) (m : Route.RateLimitMap) (identifier : string)
    (record : Route.RateRecord) :
  m identifier = Some record ->
  Route.timestamps record <> [] ->
  hurried (last (Route.timestamps record) 0) nows ->
  Forall (fun now => now <= Route.resetTime record) nows ->
  Forall (fun answer => Route.allowed answer = false /\ Route.tooFast answer = Some true)
    (fst (Route.checkAll nows m identifier)).
Proof. apply checkAll_hurried. Qed.

Lemma checkRateLimit_hurried_witness :
  let store := snd (Route.checkRateLimit 0 Route.emptyMap "10.0.0.1") in
  Forall (fun answer => Route.allowed answer = false /\ Route.tooFast answer = Some true)
    (fst (Route.checkAll [900; 1800; 2700; 3600] store "10.0.0.1")).
Proof.
  cbv zeta.
  apply (checkRateLimit_hurried [900; 1800; 2700; 3600] _ "10.0.0.1"
           (Route.mkRateRecord 1 60000 [0])).
  - reflexivity.
  - discriminate.
  - cbn. repeat split.
  - repeat constructor; cbn; discriminate.
Defined.

End RateLimiterRuns.

(** * The route: the identifier of a client *)

Lemma firstSegment_no_comma (s : string) :
  Route.includes (Route.firstSegment s) "," = false.
Proof.
  induction s as [|c rest IH]; [reflexivity|].
  cbn [Route.firstSegment].
  destruct (Ascii.eqb c ","%char) eqn:E; [reflexivity|].
  cbn [Route.includes String.prefix]. rewrite IH.
  destruct (ascii_dec "," c) as [<-|Hne]; [rewrite Ascii.eqb_refl in E; discriminate|].
  reflexivity.
Qed.

Lemma orString_not_empty (x y : option string) :
  (forall s, y = Some s -> s <> EmptyString) ->
  forall s, Route.orString x y = Some s -> s <> EmptyString.
Proof.
  intros Hy s. destruct x as [[|c rest]|]; cbn [Route.orString]; try apply Hy.
  intros [= <-]. discriminate.
Qed.

(** X25. The identifier of a client is never the empty string.  It is
    "unknown" when neither header is there; and when the first segment
    of x-forwarded-for is not empty it is that segment, which holds no
    comma, whatever x-real-ip says. *)
Theorem getClientIdentifier_not_empty (get : string -> option string) :
  Route.getClientIdentifier get <> EmptyString /\
  (get "x-forwarded-for"%string = None -> get "x-real-ip"%string = None ->
   Route.getClientIdentifier get = "unknown"%string) /\
  (forall forwarded,
     get "x-forwarded-for"%string = Some forwarded ->
     Route.firstSegment forwarded <> EmptyString ->
     Route.getClientIdentifier get = Route.firstSegment forwarded /\
     Route.includes (Route.getClientIdentifier get) "," = false).
Proof.
  unfold Route.getClientIdentifier. cbv zeta. split; [|split].
  - destruct (Route.orString _ (Some "unknown"%string)) as [s|] eqn:E; [|discriminate].
    revert s E. apply orString_not_empty. intros s [= <-]. discriminate.
  - intros -> ->. reflexivity.
  - intros forwarded -> Hne. cbn [option_map].
    destruct (Route.firstSegment forwarded) as [|c rest] eqn:E; [contradiction|].
    cbn [Route.orString]. split; [reflexivity|].
    rewrite <- E. apply firstSegment_no_comma.
Qed.

Lemma getClientIdentifier_not_empty_witness :
  let get name :=
    if String.eqb name "x-forwarded-for" then Some "203.0.113.7, 10.0.0.1"%string
    else None in
  Route.getClientIdentifier get = "203.0.113.7"%string.
Proof.
  cbv zeta.
  apply (proj2 (proj2 (getClientIdentifier_not_empty
                         (fun name =>
                            if String.eqb name "x-forwarded-for"
                            then Some "203.0.113.7, 10.0.0.1"%string else None)))
           "203.0.113.7, 10.0.0.1"%string).
  - reflexivity.
  - discriminate.
Defined.

(** An empty x-forwarded-for, or one that starts with a comma, gives way
    to x-real-ip, and an empty x-real-ip to "unknown". *)
Example getClientIdentifier_fallbacks :
  Route.getClientIdentifier
    (fun name => if String.eqb name "x-forwarded-for" then Some ",10.0.0.1"%string
                 else Some "198.51.100.4"%string)
  = "198.51.100.4"%string /\
  Route.getClientIdentifier (fun _ => Some EmptyString) = "unknown"%string.
Proof. split; reflexivity. Qed.
